(** * Firmware-update decision script ([unit-tests/test-fw-updater.py])

    A shallow embedding of the script's functions ([find],
    [get_bundled_fw_version], [has_newer_fw]) and of its top-level
    sequence of checks, together with the parts of the Python library
    they rely on ([str.split], [int], slicing, text-mode line iteration,
    [re.search] on the syntax the script's masks use). *)

From Stdlib Require Import ZArith List Bool Lia Ascii String.
Import ListNotations.

Local Open Scope string_scope.
Local Open Scope Z_scope.

(** ** Results of running Python code *)

Module Py.

(** The exceptions the modelled code can raise. *)
Inductive exn : Type :=
| IndexError   (* list index out of range *)
| ValueError   (* invalid literal for int() *)
| ReError.     (* re.error, raised by re.compile *)

(** A call either returns, leaves through [sys.exit(code)], or raises.
    [OutsideModel] marks a run that leaves the fragment of [re] syntax
    covered by [Re.compile] below: the embedding says nothing about it. *)
Inductive result (A : Type) : Type :=
| Return (a : A)
| SysExit (code : Z)
| Raise (e : exn)
| OutsideModel.

Arguments Return {A} a.
Arguments SysExit {A} code.
Arguments Raise {A} e.
Arguments OutsideModel {A}.

Definition bind {A B : Type} (m : result A) (k : A -> result B) : result B :=
  match m with
  | Return a => k a
  | SysExit c => SysExit c
  | Raise e => Raise e
  | OutsideModel => OutsideModel
  end.

End Py.

Import Py.

Declare Scope py_scope.
Delimit Scope py_scope with py.
Notation "x <- m ;; k" := (bind m (fun x => k))
  (at level 61, m at next level, right associativity) : py_scope.
Local Open Scope py_scope.

(** ** Characters and strings

    A Python [str] is modelled as a [string] whose characters are the code
    points below 256. *)

Definition LF : ascii := "010"%char.
Definition CR : ascii := "013"%char.
Definition DQUOTE : ascii := "034"%char.

Definition code (c : ascii) : nat := nat_of_ascii c.

(** [str.isspace] on one character, the separator test of [str.split()]:
    TAB..CR, FS..US, space, NEL and NBSP. *)
Definition isspace (c : ascii) : bool :=
  let n := code c in
  ((9 <=? n) && (n <=? 13) || (28 <=? n) && (n <=? 32)
   || (n =? 133) || (n =? 160))%nat.

(** The characters [int] skips at both ends of its argument: TAB..CR and
    space, and the non-ASCII spaces, which it first maps to a space. *)
Definition int_space (c : ascii) : bool :=
  let n := code c in
  ((9 <=? n) && (n <=? 13) || (n =? 32) || (n =? 133) || (n =? 160))%nat.

Definition isdigit (c : ascii) : bool :=
  let n := code c in ((48 <=? n) && (n <=? 57))%nat.

Definition digit_value (c : ascii) : Z := Z.of_nat (code c) - 48.

Fixpoint lstrip (p : ascii -> bool) (s : string) : string :=
  match s with
  | String c s' => if p c then lstrip p s' else s
  | EmptyString => EmptyString
  end.

Fixpoint rstrip (p : ascii -> bool) (s : string) : string :=
  match s with
  | String c s' =>
      match rstrip p s' with
      | EmptyString => if p c then EmptyString else String c EmptyString
      | r => String c r
      end
  | EmptyString => EmptyString
  end.

(** [s[start:stop]] with Python's treatment of negative and out-of-range
    indices. *)
Definition slice (s : string) (start stop : Z) : string :=
  let n := Z.of_nat (String.length s) in
  let norm i := if i <? 0 then Z.max 0 (i + n) else Z.min i n in
  let a := norm start in
  let b := norm stop in
  substring (Z.to_nat a) (Z.to_nat (b - a)) s.

(** [needle in hay] for two strings. *)
Fixpoint str_in (needle hay : string) : bool :=
  prefix needle hay ||
  match hay with
  | String _ hay' => str_in needle hay'
  | EmptyString => false
  end.

(** [s.split(sep)] for a one-character separator: never empty, and empty
    pieces are kept. *)
Fixpoint split_on (sep : ascii) (s : string) : list string :=
  match s with
  | EmptyString => [EmptyString]
  | String c s' =>
      if Ascii.eqb c sep then EmptyString :: split_on sep s'
      else match split_on sep s' with
           | w :: ws => String c w :: ws
           | [] => [String c EmptyString]
           end
  end.

(** [s.split()]: the maximal runs of non-space characters. *)
Fixpoint split_ws (s : string) : list string :=
  match s with
  | EmptyString => []
  | String c s' =>
      if isspace c then split_ws s'
      else match s' with
           | String c' _ =>
               if isspace c' then String c EmptyString :: split_ws s'
               else match split_ws s' with
                    | w :: ws => String c w :: ws
                    | [] => [String c EmptyString]
                    end
           | EmptyString => [String c EmptyString]
           end
  end.

(** ** [int(str)], base 10 *)

(** Digits after the first one: single underscores may separate digits. *)
Fixpoint int_digits (acc : Z) (after_underscore : bool) (s : string)
  : option Z :=
  match s with
  | EmptyString => if after_underscore then None else Some acc
  | String c s' =>
      if isdigit c then int_digits (10 * acc + digit_value c) false s'
      else if Ascii.eqb c "_" then
             if after_underscore then None else int_digits acc true s'
           else None
  end.

(** The number of digits of a literal, underscores left out. *)
Fixpoint digit_count (s : string) : nat :=
  match s with
  | EmptyString => 0
  | String c s' => (if isdigit c then 1 else 0) + digit_count s'
  end.

(** [sys.int_info.default_max_str_digits]: a literal with more digits is
    refused with [ValueError]. *)
Definition max_str_digits : Z := 4300.

Definition int_magnitude (s : string) : option Z :=
  if Z.of_nat (digit_count s) >? max_str_digits then None
  else
    match s with
    | String c s' => if isdigit c then int_digits (digit_value c) false s' else None
    | EmptyString => None
    end.

Definition int_literal (s : string) : option Z :=
  let t := rstrip int_space (lstrip int_space s) in
  match t with
  | String c r =>
      if Ascii.eqb c "+" then int_magnitude r
      else if Ascii.eqb c "-" then option_map Z.opp (int_magnitude r)
      else int_magnitude t
  | EmptyString => None
  end.

Definition int (s : string) : result Z :=
  match int_literal s with
  | Some z => Return z
  | None => Raise ValueError
  end.

(** ** [has_newer_fw] *)

(** The [for curr, bundled in zip(...)] loop. *)
Fixpoint has_newer_fw_loop (digits : list (string * string)) : result bool :=
  match digits with
  | [] => Return false
  | (curr, bundled) :: rest =>
      b <- int bundled ;;
      c <- int curr ;;
      if b >? c then Return true
      else
        b' <- int bundled ;;
        c' <- int curr ;;
        if b' <? c' then Return false
        else has_newer_fw_loop rest
  end.

Definition has_newer_fw (current_fw bundled_fw : string) : result bool :=
  let current_fw_digits := split_on "." current_fw in
  let bundled_fw_digits := split_on "." bundled_fw in
  if negb (List.length current_fw_digits =? List.length bundled_fw_digits)%nat
  then SysExit 1   (* after log.e *)
  else has_newer_fw_loop (combine current_fw_digits bundled_fw_digits).

(** ** [get_bundled_fw_version] *)

(** Text-mode reading with universal newlines: CR LF and a lone CR both
    reach the program as LF. *)
Fixpoint universal_newlines (s : string) : string :=
  match s with
  | EmptyString => EmptyString
  | String c s' =>
      if Ascii.eqb c CR then
        match s' with
        | String c' s'' =>
            if Ascii.eqb c' LF then String LF (universal_newlines s'')
            else String LF (universal_newlines s')
        | EmptyString => String LF EmptyString
        end
      else String c (universal_newlines s')
  end.

(** The lines a file object yields, each with its terminating LF; a last
    line without one is yielded as it is. *)
Fixpoint file_lines (s : string) : list string :=
  match s with
  | EmptyString => []
  | String c s' =>
      if Ascii.eqb c LF then String c EmptyString :: file_lines s'
      else match file_lines s' with
           | l :: ls => String c l :: ls
           | [] => [String c EmptyString]
           end
  end.

(** [words[i]] *)
Definition getitem (words : list string) (i : nat) : result string :=
  match nth_error words i with
  | Some w => Return w
  | None => Raise IndexError
  end.

(** The [for line in fw_versions] loop. *)
Fixpoint get_bundled_fw_version_loop (lines : list string) (product_line : string)
  : result (option string) :=
  match lines with
  | [] => Return None
  | line :: rest =>
      let words := split_ws line in
      if (List.length words =? 0)%nat then get_bundled_fw_version_loop rest product_line
      else
        w0 <- getitem words 0 ;;
        if negb (String.eqb w0 "#define") then get_bundled_fw_version_loop rest product_line
        else
          w1 <- getitem words 1 ;;
          if str_in (slice product_line 0 2) w1 then
            w2 <- getitem words 2 ;;
            Return (Some (slice w2 1 (-1)))
          else get_bundled_fw_version_loop rest product_line
  end.

(** [fw_versions] is the content of the file named by the global
    [fw_versions_file]. *)
Definition get_bundled_fw_version (fw_versions : string) (product_line : string)
  : result (option string) :=
  get_bundled_fw_version_loop (file_lines (universal_newlines fw_versions)) product_line.

(** ** [re]: the syntax the script's masks are written in *)

Module Re.

Inductive regex : Type :=
| Eps
| Chr (c : ascii)       (* an ordinary character *)
| Dot                   (* [.]: any character but LF *)
| Bol                   (* [^] *)
| Eol                   (* [$]: at the end, or before a final LF *)
| Seq (r1 r2 : regex)
| Alt (r1 r2 : regex).

(** [matches r at_start s k]: [r] matches a prefix of [s] (which begins the
    subject string iff [at_start]) and [k] accepts what follows. *)
Fixpoint matches (r : regex) (at_start : bool) (s : string)
  (k : bool -> string -> bool) : bool :=
  match r with
  | Eps => k at_start s
  | Chr c =>
      match s with
      | String d s' => Ascii.eqb c d && k false s'
      | EmptyString => false
      end
  | Dot =>
      match s with
      | String d s' => negb (Ascii.eqb d LF) && k false s'
      | EmptyString => false
      end
  | Bol => at_start && k at_start s
  | Eol =>
      match s with
      | EmptyString => k at_start s
      | String d EmptyString => Ascii.eqb d LF && k at_start s
      | _ => false
      end
  | Seq r1 r2 => matches r1 at_start s (fun b t => matches r2 b t k)
  | Alt r1 r2 => matches r1 at_start s k || matches r2 at_start s k
  end.

Fixpoint search_from (r : regex) (at_start : bool) (s : string) : bool :=
  matches r at_start s (fun _ _ => true) ||
  match s with
  | String _ s' => search_from r false s'
  | EmptyString => false
  end.

(** [pattern.search(s)] is not [None]. *)
Definition search (r : regex) (s : string) : bool := search_from r true s.

Inductive compiled : Type :=
| Compiled (r : regex)
| CompileError      (* re.error *)
| NotModelled.      (* syntax this embedding does not cover *)

(** Repetition, character sets and escapes are not covered. *)
Definition not_covered (c : ascii) : bool :=
  existsb (Ascii.eqb c) ["\"; "["; "]"; "{"; "}"; "*"; "+"; "?"]%char.

Fixpoint covered (mask : string) : bool :=
  match mask with
  | EmptyString => true
  | String c mask' => negb (not_covered c) && covered mask'
  end.

Definition close (alts : option regex) (cur : regex) : regex :=
  match alts with
  | Some a => Alt a cur
  | None => cur
  end.

(** One pass over the mask. [cur] is the branch being read, [alts] the
    branches of the current group already closed by [|], [stack] the same
    two for each enclosing group. *)
Fixpoint parse (mask : string) (cur : regex) (alts : option regex)
  (stack : list (regex * option regex)) : option regex :=
  match mask with
  | EmptyString =>
      match stack with
      | [] => Some (close alts cur)
      | _ :: _ => None          (* missing ), unterminated subpattern *)
      end
  | String c mask' =>
      if Ascii.eqb c "(" then parse mask' Eps None ((cur, alts) :: stack)
      else if Ascii.eqb c ")" then
        match stack with
        | (pcur, palts) :: stack' =>
            parse mask' (Seq pcur (close alts cur)) palts stack'
        | [] => None            (* unbalanced parenthesis *)
        end
      else if Ascii.eqb c "|" then parse mask' Eps (Some (close alts cur)) stack
      else if Ascii.eqb c "." then parse mask' (Seq cur Dot) alts stack
      else if Ascii.eqb c "^" then parse mask' (Seq cur Bol) alts stack
      else if Ascii.eqb c "$" then parse mask' (Seq cur Eol) alts stack
      else parse mask' (Seq cur (Chr c)) alts stack
  end.

(** [re.compile(mask)] *)
Definition compile (mask : string) : compiled :=
  if covered mask then
    match parse mask Eps None [] with
    | Some r => Compiled r
    | None => CompileError
    end
  else NotModelled.

End Re.

(** ** The world the script runs in *)

Record Device : Type := {
  firmware_version : string;   (* get_info( rs.camera_info.firmware_version ) *)
  product_line : string        (* get_info( rs.camera_info.product_line ) *)
}.

Record World : Type := {
  librealsense : string;             (* the repository root *)
  os_path_join : string -> string -> string;
  fw_versions_file : option string;  (* content of common/fw/firmware-version.h,
                                        [None] when it is not a file *)
  filesin : list string;             (* what [filesin( librealsense )] yields, in order *)
  devices_all : list Device          (* the devices behind [devices.all()] *)
}.

(** ** [find] *)

Definition find (leafs : list string) (mask : string) : result (list string) :=
  match Re.compile mask with
  | Re.Compiled pattern => Return (filter (fun leaf => Re.search pattern leaf) leafs)
  | Re.CompileError => Raise ReError
  | Re.NotModelled => OutsideModel
  end.

(** ** The script body *)

(** [x = None] followed by [for file in ...: x = os.path.join( librealsense, file )]. *)
Definition keep_joined (w : World) (files : list string) : option string :=
  fold_left (fun _ file => Some (os_path_join w (librealsense w) file)) files None.

(** Truth value of a variable holding [None] or a [str]. *)
Definition truthy (x : option string) : bool :=
  match x with
  | Some (String _ _) => true
  | _ => false
  end.

Definition str_of (x : option string) : string :=
  match x with
  | Some s => s
  | None => EmptyString
  end.

Definition updater_mask : string := "(^|/)rs-fw-update.exe$".

Definition image_name (product_line bundled_fw_version : string) : string :=
  slice product_line 0 2 ++ "XX_FW_Image-" ++ bundled_fw_version ++ ".bin".

Definition image_mask (product_line bundled_fw_version : string) : string :=
  "(^|/)" ++ image_name product_line bundled_fw_version ++ "$".

(** The module-level statements. [Return argv] stands for reaching
    [subprocess.run( argv )]. *)
Definition script (w : World) : result (list string) :=
  match fw_versions_file w with
  | None => SysExit 1
  | Some fw_versions =>
      files <- find (filesin w) updater_mask ;;
      let fw_updater_exe := keep_joined w files in
      if negb (truthy fw_updater_exe) then SysExit 1
      else
        let sn_list := devices_all w in
        if negb (List.length sn_list =? 1)%nat then SysExit 1
        else
          match sn_list with
          | [] => Raise IndexError
          | device :: _ =>
              let current_fw_version := firmware_version device in
              let product_line := product_line device in
              bundled <- get_bundled_fw_version fw_versions product_line ;;
              if negb (truthy bundled) then SysExit 1
              else
                let bundled_fw_version := str_of bundled in
                newer <- has_newer_fw current_fw_version bundled_fw_version ;;
                if negb newer then SysExit 0
                else
                  files' <- find (filesin w) (image_mask product_line bundled_fw_version) ;;
                  let image_file := keep_joined w files' in
                  if negb (truthy image_file) then SysExit 1
                  else Return [str_of fw_updater_exe; "-f"; str_of image_file]
          end
  end.

(** [posixpath.join] for two arguments. *)
Definition posix_join (a b : string) : string :=
  if prefix "/" b then b
  else if String.eqb a "" || prefix "/" (string_of_list_ascii (rev (list_ascii_of_string a)))
       then a ++ b
       else a ++ "/" ++ b.

(** ** Versions as the specification describes them *)

(** The components of a dotted version string as integers, when every one of
    them is accepted by [int]. *)
Fixpoint version_digits (words : list string) : option (list Z) :=
  match words with
  | [] => Some []
  | w :: words' =>
      match int_literal w, version_digits words' with
      | Some z, Some zs => Some (z :: zs)
      | _, _ => None
      end
  end.

Definition version_of (s : string) : option (list Z) :=
  version_digits (split_on "." s).

(** A component written with decimal digits only, and at least one. *)
Fixpoint all_digits (s : string) : bool :=
  match s with
  | EmptyString => true
  | String c s' => isdigit c && all_digits s'
  end.

Definition decimal (s : string) : bool :=
  match s with
  | EmptyString => false
  | String _ _ => all_digits s
  end.

(** The candidate is greater at the first position where the two differ. *)
Fixpoint newer_lex (current candidate : list Z) : bool :=
  match current, candidate with
  | c :: current', b :: candidate' =>
      if b >? c then true
      else if b <? c then false
      else newer_lex current' candidate'
  | _, _ => false
  end.

(** ** The manifest as the specification describes it *)

(** A line qualifies for a family prefix when its first token is [#define]
    and its second token contains the prefix. *)
Definition qualifies (prefix line : string) : bool :=
  match split_ws line with
  | w0 :: w1 :: _ => String.eqb w0 "#define" && str_in prefix w1
  | _ => false
  end.

(** The third token of a line without its first and last character. *)
Definition version_token (line : string) : option string :=
  match split_ws line with
  | _ :: _ :: w2 :: _ => Some (slice w2 1 (-1))
  | _ => None
  end.

(** The version token of the first qualifying line. *)
Definition manifest_lookup (lines : list string) (prefix : string) : option string :=
  match List.find (qualifies prefix) lines with
  | Some line => version_token line
  | None => None
  end.

(** A [#define] line has the tokens the reader indexes: a second one, and a
    third one when the second contains the prefix. *)
Definition enough_tokens (prefix line : string) : bool :=
  match split_ws line with
  | w0 :: ws =>
      if String.eqb w0 "#define" then
        match ws with
        | [] => false
        | [w1] => negb (str_in prefix w1)
        | _ :: _ :: _ => true
        end
      else true
  | [] => true
  end.

(** The elements of a list up to and including the first that satisfies [p]. *)
Fixpoint up_to_first {A : Type} (p : A -> bool) (l : list A) : list A :=
  match l with
  | [] => []
  | x :: l' => if p x then [x] else x :: up_to_first p l'
  end.

Definition manifest_lines (fw_versions : string) : list string :=
  file_lines (universal_newlines fw_versions).

(** ** Paths *)

(** The final component of a relative path written with [/]. *)
Definition basename (path : string) : string :=
  last (split_on "/" path) EmptyString.

(** The compiled form of [updater_mask]. *)
Definition updater_pattern : Re.regex :=
  Eval vm_compute in
    match Re.compile updater_mask with
    | Re.Compiled r => r
    | _ => Re.Eps
    end.

(** [os.path.join] never joins a non-empty relative path into an empty one. *)
Definition join_nonempty (w : World) : Prop :=
  forall file, file <> EmptyString ->
               os_path_join w (librealsense w) file <> EmptyString.

(** ** The ways the script ends with an exit code

    [exit_case w c]: in world [w] the run meets one of the conditions the
    specification lists for exit code [c]. The image is looked for only
    when an update is needed, and the versions are compared only once the
    manifest, the updater and the single device have been found. *)
Inductive exit_case (w : World) : Z -> Prop :=
| manifest_absent :
    fw_versions_file w = None ->
    exit_case w 1
| updater_not_found :
    find (filesin w) updater_mask = Return [] ->
    exit_case w 1
| device_count_not_one :
    List.length (devices_all w) <> 1%nat ->
    exit_case w 1
| no_bundled_version (fw_versions : string) (device : Device) :
    fw_versions_file w = Some fw_versions ->
    devices_all w = [device] ->
    get_bundled_fw_version fw_versions (product_line device) = Return None ->
    exit_case w 1
| component_count_mismatch (fw_versions : string) (device : Device) (bundled : string) :
    fw_versions_file w = Some fw_versions ->
    devices_all w = [device] ->
    get_bundled_fw_version fw_versions (product_line device) = Return (Some bundled) ->
    List.length (split_on "." (firmware_version device))
    <> List.length (split_on "." bundled) ->
    exit_case w 1
| image_not_found (fw_versions : string) (device : Device) (bundled : string)
    (cs bs : list Z) :
    fw_versions_file w = Some fw_versions ->
    devices_all w = [device] ->
    get_bundled_fw_version fw_versions (product_line device) = Return (Some bundled) ->
    version_of (firmware_version device) = Some cs ->
    version_of bundled = Some bs ->
    List.length cs = List.length bs ->
    newer_lex cs bs = true ->
    find (filesin w) (image_mask (product_line device) bundled) = Return [] ->
    exit_case w 1
| no_update_needed (fw_versions : string) (device : Device) (bundled : string)
    (files : list string) (cs bs : list Z) :
    fw_versions_file w = Some fw_versions ->
    find (filesin w) updater_mask = Return files ->
    files <> [] ->
    devices_all w = [device] ->
    get_bundled_fw_version fw_versions (product_line device) = Return (Some bundled) ->
    version_of (firmware_version device) = Some cs ->
    version_of bundled = Some bs ->
    List.length cs = List.length bs ->
    newer_lex cs bs = false ->
    exit_case w 0.

(** ** Sample inputs *)

Definition quoted (s : string) : string := String DQUOTE (s ++ String DQUOTE "").

Definition sample_manifest : string :=
  String.concat (String LF "")
    [ "#pragma once";
      "";
      "// D4XX_FW_VERSION " ++ quoted "9.9.9";
      "#define FIRMWARE_VERSION_H";
      "#define L5XX_FW_VERSION " ++ quoted "1.5.8.1" ++ String CR "";
      "#define D4XX_FW_VERSION " ++ quoted "5.13.0";
      "#define D4XX_OLD_FW_VERSION " ++ quoted "5.12.0";
      "#define" ].

Definition d4_define_line : string := "#define D4XX_FW_VERSION " ++ quoted "5.13.0".

Definition lf_manifest : string :=
  String.concat (String LF "")
    [ "#pragma once"; "#define L5XX_FW_VERSION " ++ quoted "1.5.8.1"; d4_define_line; "" ].

Definition sample_device (fw : string) : Device :=
  {| firmware_version := fw; product_line := "D400" |}.

Definition sample_tree : list string :=
  [ "README.md";
    "build/Debug/rs-fw-update.exe";
    "build/Release/rs-fw-update.exe";
    "common/fw/firmware-version.h";
    "common/fw/D4XX_FW_Image-5.12.0.bin";
    "common/fw/D4XX_FW_Image-5.13.0.bin";
    "build/common/fw/D4XX_FW_Image-5.13.0.bin";
    "tools/not-rs-fw-update.exe" ].

Definition sample_world (fw_versions : option string) (leafs : list string)
  (devices : list Device) : World :=
  {| librealsense := "/home/ci/librealsense";
     os_path_join := posix_join;
     fw_versions_file := fw_versions;
     filesin := leafs;
     devices_all := devices |}.

(** ** Long literals *)

(** [c * n] in Python: the character repeated. *)
Fixpoint repeat_char (c : ascii) (n : nat) : string :=
  match n with
  | O => EmptyString
  | S n' => String c (repeat_char c n')
  end.

(** ** Counting *)

(** The number of occurrences of a character in a string. *)
Fixpoint count_char (c : ascii) (s : string) : nat :=
  match s with
  | EmptyString => 0
  | String d s' => (if Ascii.eqb d c then 1 else 0) + count_char c s'
  end.

(** ** Line endings *)

(** A text written with LF line ends, rewritten with CR LF or with CR alone. *)
Fixpoint with_crlf (s : string) : string :=
  match s with
  | EmptyString => EmptyString
  | String c s' =>
      if Ascii.eqb c LF then String CR (String LF (with_crlf s'))
      else String c (with_crlf s')
  end.

Fixpoint with_cr (s : string) : string :=
  match s with
  | EmptyString => EmptyString
  | String c s' =>
      if Ascii.eqb c LF then String CR (with_cr s') else String c (with_cr s')
  end.

(** ** Masks built from a file name *)

(** A character that a mask takes as itself, or as [.]. *)
Definition plain (c : ascii) : bool :=
  negb (Re.not_covered c) &&
  negb (existsb (Ascii.eqb c) ["("; ")"; "|"; "^"; "$"]%char).

Fixpoint plain_name (name : string) : bool :=
  match name with
  | EmptyString => true
  | String c name' => plain c && plain_name name'
  end.

(** What one plain character of a mask compiles to. *)
Definition atom (c : ascii) : Re.regex :=
  if Ascii.eqb c "." then Re.Dot else Re.Chr c.

Fixpoint seq_atoms (r : Re.regex) (name : string) : Re.regex :=
  match name with
  | EmptyString => r
  | String c name' => seq_atoms (Re.Seq r (atom c)) name'
  end.

(** The compiled form of the mask's head [(^|/)]. *)
Definition boundary : Re.regex :=
  Re.Seq Re.Eps (Re.Alt (Re.Seq Re.Eps Re.Bol) (Re.Seq Re.Eps (Re.Chr "/"))).

(** The compiled form of [(^|/)] followed by a plain name and [$]. *)
Definition name_pattern (name : string) : Re.regex :=
  Re.Seq (seq_atoms boundary name) Re.Eol.

(** Matching the characters of a name one after the other. *)
Fixpoint match_atoms (name : string) (at_start : bool) (s : string)
  (k : bool -> string -> bool) : bool :=
  match name with
  | EmptyString => k at_start s
  | String c name' =>
      Re.matches (atom c) at_start s (fun b t => match_atoms name' b t k)
  end.

(** [body] is [name] character by character, a [.] of [name] standing for
    any character but LF. *)
Fixpoint reads_as (name body : string) : bool :=
  match name, body with
  | EmptyString, EmptyString => true
  | String c name', String d body' =>
      (if Ascii.eqb c "." then negb (Ascii.eqb d LF) else Ascii.eqb c d)
      && reads_as name' body'
  | _, _ => false
  end.

(** A path passes the mask of [name]: after the start or a [/] comes a text
    that reads as [name], then the end, or one LF and the end. *)
Definition passes (name path : string) : Prop :=
  exists pre body nl,
    path = pre ++ body ++ nl /\
    (pre = EmptyString \/ exists pre', pre = pre' ++ "/") /\
    reads_as name body = true /\
    (nl = EmptyString \/ nl = String LF EmptyString).

(** ** The ways a run can end

    [ending w r]: [r] is an early exit with code 1, the reader's index
    error, or what follows the comparison of the two versions. *)
Inductive ending (w : World) : result (list string) -> Prop :=
| ends_early :
    ending w (SysExit 1)
| ends_reader (fw_versions : string) (device : Device) :
    fw_versions_file w = Some fw_versions ->
    devices_all w = [device] ->
    get_bundled_fw_version fw_versions (product_line device) = Raise IndexError ->
    ending w (Raise IndexError)
| ends_compare (fw_versions : string) (device : Device) (bundled : string)
    (r : result bool) :
    fw_versions_file w = Some fw_versions ->
    devices_all w = [device] ->
    filter (fun leaf => Re.search updater_pattern leaf) (filesin w) <> [] ->
    get_bundled_fw_version fw_versions (product_line device) = Return (Some bundled) ->
    bundled <> EmptyString ->
    has_newer_fw (firmware_version device) bundled = r ->
    ending w
      (newer <- r ;;
       if negb newer then SysExit 0
       else
         files' <- find (filesin w) (image_mask (product_line device) bundled) ;;
         if negb (truthy (keep_joined w files')) then SysExit 1
         else Return [str_of (keep_joined w
                                (filter (fun leaf => Re.search updater_pattern leaf)
                                        (filesin w)));
                      "-f"; str_of (keep_joined w files')]).

(** ** Worlds that differ in their devices *)

Definition with_devices (w : World) (devices : list Device) : World :=
  {| librealsense := librealsense w;
     os_path_join := os_path_join w;
     fw_versions_file := fw_versions_file w;
     filesin := filesin w;
     devices_all := devices |}.

(** ** [filesin] over a directory tree *)

Module Walk.

(** The two values of [os.sep]. *)
Inductive platform : Type := Posix | Windows.

Definition sep (p : platform) : string :=
  match p with
  | Posix => "/"
  | Windows => "\"
  end.

(** A directory as [os.walk] finds it: the names of its files and its
    sub-directories, each in the order in which the directory lists them. *)
#[warnings="-register-all"]
Inductive tree : Type :=
| Dir (leafs : list string) (subdirs : list (string * tree)).

(** [os.walk( root )], top-down: one [(path, subdirs, leafs)] per directory,
    a directory before its sub-directories; [path] is given as the names of
    the directories from the root down. *)
Fixpoint walk (path : list string) (t : tree)
  : list (list string * list string * list string) :=
  match t with
  | Dir leafs subdirs =>
      (path, map fst subdirs, leafs)
      :: (fix each (l : list (string * tree)) :=
            match l with
            | [] => []
            | (name, sub) :: l' => (walk (path ++ [name]) sub ++ each l')%list
            end) subdirs
  end.

(** [s.replace( old, new )] for single characters. *)
Fixpoint replace (old new : ascii) (s : string) : string :=
  match s with
  | EmptyString => EmptyString
  | String c s' =>
      String (if Ascii.eqb c old then new else c) (replace old new s')
  end.

(** [os.path.relpath( path + '/' + leaf, root )]: the names from the root
    down to the leaf, joined by [os.sep]. *)
Definition relpath (p : platform) (path : list string) (leaf : string) : string :=
  String.concat (sep p) (path ++ [leaf]).

Definition filesin_from (p : platform) (path : list string) (t : tree) : list string :=
  flat_map (fun '(path, _, leafs) =>
              map (fun leaf => replace "\" "/" (relpath p path leaf)) leafs)
           (walk path t).

Definition filesin (p : platform) (root : tree) : list string :=
  filesin_from p [] root.

(** A file of the given name lies somewhere in the tree. *)
Inductive contains : tree -> string -> Prop :=
| contains_here (leafs : list string) (subdirs : list (string * tree)) (name : string) :
    In name leafs -> contains (Dir leafs subdirs) name
| contains_below (leafs : list string) (subdirs : list (string * tree))
    (dir : string) (sub : tree) (name : string) :
    In (dir, sub) subdirs -> contains sub name -> contains (Dir leafs subdirs) name.

(** The directory names of a path, each followed by [/], backslashes
    replaced. *)
Fixpoint dir_prefix (path : list string) : string :=
  match path with
  | [] => EmptyString
  | name :: path' => replace "\" "/" name ++ "/" ++ dir_prefix path'
  end.

Definition sample_root : tree :=
  Dir ["README.md"]
      [ ("build", Dir [] [ ("Release", Dir ["rs-fw-update.exe"; "a\b.txt"] []) ]);
        ("common", Dir ["fw.h"] []) ].

End Walk.

Definition sample_repository : Walk.tree :=
  Walk.Dir ["README.md"]
    [ ("build", Walk.Dir [] [ ("Release", Walk.Dir ["rs-fw-update.exe"] []) ]);
      ("common", Walk.Dir []
         [ ("fw", Walk.Dir ["firmware-version.h"; "D4XX_FW_Image-5.13.0.bin"] []) ]) ].

(** * Checks on concrete inputs *)

Example has_newer_fw_ex1 : has_newer_fw "1.20.0" "1.3.0" = Return false.
Proof. reflexivity. Qed.
Example has_newer_fw_ex2 : has_newer_fw "1.3.0" "1.20.0" = Return true.
Proof. reflexivity. Qed.
Example has_newer_fw_ex3 : has_newer_fw "1.2" "1.2.0" = SysExit 1.
Proof. reflexivity. Qed.
Example int_ex1 : int_literal " +1_000 " = Some 1000.
Proof. reflexivity. Qed.
Example int_ex2 : int_literal "1__0" = None.
Proof. reflexivity. Qed.
Example split_ws_ex : split_ws "  ab  c d " = ["ab"; "c"; "d"].
Proof. reflexivity. Qed.
Example slice_ex : slice "abcde" 1 (-1) = "bcd" /\ slice "a" 1 (-1) = "" /\ slice "abc" 0 2 = "ab" /\ slice "a" 0 2 = "a".
Proof. repeat split. Qed.

Example get_bundled_ex1 :
  get_bundled_fw_version sample_manifest "L515" = Return (Some "1.5.8.1").
Proof. reflexivity. Qed.
Example get_bundled_ex2 :
  get_bundled_fw_version sample_manifest "SR300" = Raise IndexError.
Proof. reflexivity. Qed.
Example get_bundled_ex3 :
  get_bundled_fw_version ("#pragma once" ++ String CR d4_define_line) "L515" = Return None.
Proof. reflexivity. Qed.
Example compile_ex :
  Re.compile "a(b|c" = Re.CompileError /\ Re.compile "a)b" = Re.CompileError /\
  Re.compile "a*" = Re.NotModelled /\
  Re.compile "(^|/)a.b$"
  = Re.Compiled
      (Re.Seq (Re.Seq (Re.Seq (Re.Seq (Re.Seq Re.Eps
         (Re.Alt (Re.Seq Re.Eps Re.Bol) (Re.Seq Re.Eps (Re.Chr "/"))))
         (Re.Chr "a")) Re.Dot) (Re.Chr "b")) Re.Eol).
Proof. repeat split. Qed.
Example find_ex :
  find sample_tree updater_mask
  = Return ["build/Debug/rs-fw-update.exe"; "build/Release/rs-fw-update.exe"] /\
  find ["rs-fw-update.exe" ++ String LF ""; "rs-fw-update/exe"; "rs-fw-update.exe/x"]
       updater_mask
  = Return ["rs-fw-update.exe" ++ String LF ""; "rs-fw-update/exe"].
Proof. split; reflexivity. Qed.

(** The script on sample worlds, one per way of ending. *)
Example script_no_manifest :
  script (sample_world None sample_tree [sample_device "5.12.1"]) = SysExit 1.
Proof. reflexivity. Qed.
Example script_no_updater :
  script (sample_world (Some sample_manifest) ["README.md"] [sample_device "5.12.1"])
  = SysExit 1.
Proof. reflexivity. Qed.
Example script_no_device :
  script (sample_world (Some sample_manifest) sample_tree []) = SysExit 1.
Proof. reflexivity. Qed.
Example script_two_devices :
  script (sample_world (Some sample_manifest) sample_tree
            [sample_device "5.12.1"; sample_device "5.12.1"]) = SysExit 1.
Proof. reflexivity. Qed.
Example script_no_entry :
  script (sample_world (Some "#pragma once") sample_tree [sample_device "5.12.1"])
  = SysExit 1.
Proof. reflexivity. Qed.
Example script_count_mismatch :
  script (sample_world (Some sample_manifest) sample_tree [sample_device "5.12.1.7"])
  = SysExit 1.
Proof. reflexivity. Qed.
Example script_no_image :
  script (sample_world (Some sample_manifest)
            ["build/rs-fw-update.exe"; "common/fw/D4XX_FW_Image-5.12.0.bin"]
            [sample_device "5.12.1"]) = SysExit 1.
Proof. reflexivity. Qed.
Example script_up_to_date :
  script (sample_world (Some sample_manifest) sample_tree [sample_device "5.13.0"])
  = SysExit 0 /\
  script (sample_world (Some sample_manifest) sample_tree [sample_device "5.14.0"])
  = SysExit 0.
Proof. split; reflexivity. Qed.
Example script_launches :
  script (sample_world (Some sample_manifest) sample_tree [sample_device "5.12.1"])
  = Return [ "/home/ci/librealsense/build/Release/rs-fw-update.exe"; "-f";
             "/home/ci/librealsense/build/common/fw/D4XX_FW_Image-5.13.0.bin" ].
Proof. reflexivity. Qed.
Example script_bad_version :
  script (sample_world (Some sample_manifest) sample_tree [sample_device "5.x.1"])
  = Raise ValueError.
Proof. reflexivity. Qed.

(** * [has_newer_fw] *)

Section Has_newer_fw.

Lemma version_digits_length (words : list string) (zs : list Z) :
  version_digits words = Some zs -> List.length zs = List.length words.
Proof.
  revert zs; induction words as [|w words IH]; intros zs H; simpl in H.
  - now inversion H.
  - destruct (int_literal w); [|discriminate].
    destruct (version_digits words) as [zs'|]; [|discriminate].
    inversion H; subst; simpl. now rewrite (IH zs').
Qed.

Lemma isdigit_not_space (c : ascii) : isdigit c = true -> int_space c = false.
Proof.
  unfold isdigit, int_space. set (n := code c).
  intros H. apply andb_true_iff in H as [H1 H2].
  apply Nat.leb_le in H1, H2.
  replace (n <=? 13)%nat with false by (symmetry; apply Nat.leb_gt; lia).
  replace (n =? 32)%nat with false by (symmetry; apply Nat.eqb_neq; lia).
  replace (n =? 133)%nat with false by (symmetry; apply Nat.eqb_neq; lia).
  replace (n =? 160)%nat with false by (symmetry; apply Nat.eqb_neq; lia).
  now rewrite andb_false_r.
Qed.

Lemma rstrip_all_digits (s : string) :
  all_digits s = true -> rstrip int_space s = s.
Proof.
  induction s as [|c s IH]; [reflexivity|]. cbn [all_digits rstrip].
  intros H. apply andb_true_iff in H as [Hc Hs]. rewrite (IH Hs).
  destruct s; [|reflexivity]. now rewrite (isdigit_not_space c Hc).
Qed.

Lemma digit_value_nonneg (c : ascii) : isdigit c = true -> 0 <= digit_value c.
Proof.
  unfold isdigit, digit_value. intros H. apply andb_true_iff in H as [H1 _].
  apply Nat.leb_le in H1. lia.
Qed.

Lemma int_digits_all_digits (s : string) (acc : Z) :
  all_digits s = true -> 0 <= acc ->
  exists z, int_digits acc false s = Some z /\ 0 <= z.
Proof.
  revert acc; induction s as [|c s IH]; intros acc Hs Hacc; cbn [int_digits].
  - now exists acc.
  - cbn [all_digits] in Hs. apply andb_true_iff in Hs as [Hc Hs]. rewrite Hc.
    apply IH; [assumption|]. pose proof (digit_value_nonneg c Hc). lia.
Qed.

Lemma digit_count_length (s : string) : (digit_count s <= String.length s)%nat.
Proof.
  induction s as [|c s IH]; [reflexivity|]. cbn [digit_count String.length].
  destruct (isdigit c); lia.
Qed.

(** [int] accepts every non-empty string of at most 4300 decimal digits. *)
Lemma int_literal_decimal (s : string) :
  decimal s = true ->
  Z.of_nat (String.length s) <= max_str_digits ->
  exists z, int_literal s = Some z /\ 0 <= z.
Proof.
  destruct s as [|c s]; [discriminate|]. cbn [decimal]. intros Hs Hlen.
  pose proof Hs as Hs'. cbn [all_digits] in Hs'.
  apply andb_true_iff in Hs' as [Hc Htail].
  unfold int_literal. cbn [lstrip]. rewrite (isdigit_not_space c Hc).
  rewrite (rstrip_all_digits _ Hs).
  destruct (Ascii.eqb_spec c "+") as [->|_]; [discriminate Hc|].
  destruct (Ascii.eqb_spec c "-") as [->|_]; [discriminate Hc|].
  unfold int_magnitude.
  replace (Z.of_nat (digit_count (String c s)) >? max_str_digits) with false.
  - rewrite Hc.
    apply int_digits_all_digits; [assumption|now apply digit_value_nonneg].
  - pose proof (digit_count_length (String c s)). symmetry.
    rewrite Z.gtb_ltb. apply Z.ltb_ge. lia.
Qed.

(** A string whose components are all decimal and within the digit limit is
    a version of non-negative integers. *)
Lemma version_digits_decimal (words : list string) :
  forallb decimal words = true ->
  Forall (fun w => Z.of_nat (String.length w) <= max_str_digits) words ->
  exists ds, version_digits words = Some ds /\ Forall (fun z => 0 <= z) ds.
Proof.
  induction words as [|w words IH]; cbn [forallb version_digits]; intros H Hlen.
  - now exists [].
  - apply andb_true_iff in H as [Hw Hws].
    inversion Hlen as [|? ? Hl Hls]; subst.
    destruct (int_literal_decimal w Hw Hl) as (z & -> & Hz).
    destruct (IH Hws Hls) as (ds & -> & Hds).
    exists (z :: ds). split; [reflexivity|now constructor].
Qed.

(** A literal of more than 4300 digits is refused. *)
Lemma int_magnitude_limit (s : string) :
  max_str_digits < Z.of_nat (digit_count s) -> int_magnitude s = None.
Proof.
  intros H. unfold int_magnitude.
  now replace (Z.of_nat (digit_count s) >? max_str_digits) with true by lia.
Qed.

Lemma int_space_not_digit (c : ascii) : int_space c = true -> isdigit c = false.
Proof.
  intros H. destruct (isdigit c) eqn:E; [|reflexivity].
  rewrite (isdigit_not_space c E) in H. discriminate.
Qed.

Lemma digit_count_lstrip (s : string) :
  digit_count (lstrip int_space s) = digit_count s.
Proof.
  induction s as [|c s IH]; [reflexivity|]. cbn [lstrip].
  destruct (int_space c) eqn:E; [|reflexivity].
  cbn [digit_count]. now rewrite (int_space_not_digit c E), IH.
Qed.

Lemma digit_count_rstrip (s : string) :
  digit_count (rstrip int_space s) = digit_count s.
Proof.
  induction s as [|c s IH]; [reflexivity|]. cbn [rstrip digit_count].
  rewrite <- IH. destruct (rstrip int_space s) as [|d r]; [|reflexivity].
  destruct (int_space c) eqn:E; [|reflexivity].
  now rewrite (int_space_not_digit c E).
Qed.

(** [int] refuses every string with more than 4300 digits. *)
Lemma int_literal_limit (s : string) :
  max_str_digits < Z.of_nat (digit_count s) -> int_literal s = None.
Proof.
  intros H. rewrite <- digit_count_lstrip, <- digit_count_rstrip in H.
  unfold int_literal. destruct (rstrip int_space (lstrip int_space s)) as [|c r];
    [reflexivity|].
  destruct (Ascii.eqb_spec c "+") as [->|_];
    [now rewrite int_magnitude_limit|].
  destruct (Ascii.eqb_spec c "-") as [->|_];
    [now rewrite int_magnitude_limit|].
  now apply int_magnitude_limit.
Qed.

Example int_limit_ex :
  int_literal (repeat_char "1" 4300) <> None /\
  int_literal (repeat_char "1" 4301) = None /\
  int_literal (repeat_char "0" 4300 ++ "1") = None /\
  has_newer_fw (repeat_char "1" 4301) "0" = Raise ValueError /\
  has_newer_fw "0" (repeat_char "1" 4301) = Raise ValueError.
Proof. vm_compute. repeat split. discriminate. Qed.

Lemma int_Return (w : string) (z : Z) :
  int_literal w = Some z -> int w = Return z.
Proof. unfold int; now intros ->. Qed.

(** On parsed versions the loop computes [newer_lex]. *)
Lemma has_newer_fw_loop_lex (cws bws : list string) (cs bs : list Z) :
  version_digits cws = Some cs ->
  version_digits bws = Some bs ->
  has_newer_fw_loop (combine cws bws) = Return (newer_lex cs bs).
Proof.
  revert bws cs bs.
  induction cws as [|cw cws IH]; intros bws cs bs Hc Hb; simpl in Hc.
  - inversion Hc; subst. reflexivity.
  - destruct (int_literal cw) as [c|] eqn:Ec; [|discriminate].
    destruct (version_digits cws) as [cs'|] eqn:Ecs; [|discriminate].
    inversion Hc; subst; clear Hc.
    destruct bws as [|bw bws]; simpl in Hb.
    + inversion Hb; subst. reflexivity.
    + destruct (int_literal bw) as [b|] eqn:Eb; [|discriminate].
      destruct (version_digits bws) as [bs'|] eqn:Ebs; [|discriminate].
      inversion Hb; subst; clear Hb.
      simpl. rewrite (int_Return _ _ Eb), (int_Return _ _ Ec). simpl.
      destruct (b >? c); [reflexivity|].
      destruct (b <? c); [reflexivity|].
      now apply IH.
Qed.

Lemma has_newer_fw_lex (current_fw bundled_fw : string) (cs bs : list Z) :
  version_of current_fw = Some cs ->
  version_of bundled_fw = Some bs ->
  List.length (split_on "." current_fw) = List.length (split_on "." bundled_fw) ->
  has_newer_fw current_fw bundled_fw = Return (newer_lex cs bs).
Proof.
  intros Hc Hb Hlen. unfold has_newer_fw.
  rewrite Hlen, Nat.eqb_refl. simpl.
  now apply has_newer_fw_loop_lex.
Qed.

Lemma has_newer_fw_exits (current_fw bundled_fw : string) :
  List.length (split_on "." current_fw) <> List.length (split_on "." bundled_fw) ->
  has_newer_fw current_fw bundled_fw = SysExit 1.
Proof.
  intros Hlen. unfold has_newer_fw. apply Nat.eqb_neq in Hlen. now rewrite Hlen.
Qed.

Lemma version_of_nonempty (fw : string) (ds : list Z) :
  version_of fw = Some ds -> fw <> EmptyString.
Proof. intros H ->. discriminate H. Qed.

Lemma newer_lex_first_difference (cs bs : list Z) :
  List.length cs = List.length bs ->
  newer_lex cs bs = true <->
  exists i, (i < List.length cs)%nat /\
            (forall j, (j < i)%nat -> nth j cs 0 = nth j bs 0) /\
            nth i cs 0 < nth i bs 0.
Proof.
  revert bs; induction cs as [|c cs IH]; intros [|b bs] Hlen; simpl in Hlen;
    try discriminate.
  - simpl; split; [discriminate|]. intros (i & Hi & _); simpl in Hi; lia.
  - injection Hlen as Hlen. simpl.
    destruct (b >? c) eqn:Hgt.
    + split; [intros _|reflexivity].
      exists 0%nat; simpl; repeat split; try lia.
    + destruct (b <? c) eqn:Hlt.
      * split; [discriminate|].
        intros (i & _ & Heq & Hi). destruct i as [|i].
        -- simpl in Hi; lia.
        -- specialize (Heq 0%nat ltac:(lia)); simpl in Heq; lia.
      * assert (b = c) by lia; subst b.
        rewrite (IH bs Hlen). split.
        -- intros (i & Hi & Heq & Hlt'). exists (S i); simpl.
           repeat split; [lia| |assumption].
           intros [|j] Hj; [reflexivity|]. apply Heq; lia.
        -- intros (i & Hi & Heq & Hlt'). destruct i as [|i].
           ++ simpl in Hlt'; lia.
           ++ exists i; simpl in *. repeat split; [lia| |assumption].
              intros j Hj. apply (Heq (S j)); lia.
Qed.

Lemma newer_lex_equal (cs bs : list Z) :
  (forall j, nth j cs 0 = nth j bs 0) -> newer_lex cs bs = false.
Proof.
  revert bs; induction cs as [|c cs IH]; intros [|b bs] Heq; try reflexivity.
  simpl. pose proof (Heq 0%nat) as H0; simpl in H0; subst b.
  replace (c >? c) with false by lia. replace (c <? c) with false by lia.
  apply IH. intros j. apply (Heq (S j)).
Qed.

Lemma newer_lex_irrefl (cs : list Z) : newer_lex cs cs = false.
Proof. now apply newer_lex_equal. Qed.

End Has_newer_fw.

(** C1: on two version strings with the same number of components,
    [has_newer_fw] returns a boolean; it is [True] exactly when, at the
    first position where the components differ as integers, the bundled one
    is the greater, and [False] when all components are equal. The comparison
    is on numbers: 1.20.0 against 1.3.0 gives [False], 1.3.0 against 1.20.0
    gives [True]. *)
Theorem has_newer_fw_first_difference (current_fw bundled_fw : string) (cs bs : list Z) :
  version_of current_fw = Some cs ->
  version_of bundled_fw = Some bs ->
  List.length (split_on "." current_fw) = List.length (split_on "." bundled_fw) ->
  (has_newer_fw current_fw bundled_fw = Return true \/
   has_newer_fw current_fw bundled_fw = Return false) /\
  (has_newer_fw current_fw bundled_fw = Return true <->
   exists i, (i < List.length cs)%nat /\
             (forall j, (j < i)%nat -> nth j cs 0 = nth j bs 0) /\
             nth i cs 0 < nth i bs 0) /\
  ((forall j, nth j cs 0 = nth j bs 0) ->
   has_newer_fw current_fw bundled_fw = Return false) /\
  has_newer_fw "1.20.0" "1.3.0" = Return false /\
  has_newer_fw "1.3.0" "1.20.0" = Return true.
Proof.
  intros Hc Hb Hlen.
  rewrite (has_newer_fw_lex _ _ _ _ Hc Hb Hlen).
  assert (Hl : List.length cs = List.length bs).
  { rewrite (version_digits_length _ _ Hc), (version_digits_length _ _ Hb).
    exact Hlen. }
  repeat split.
  - destruct (newer_lex cs bs); auto.
  - intros H. apply newer_lex_first_difference; [assumption|congruence].
  - intros H. f_equal. now apply newer_lex_first_difference.
  - intros H. f_equal. now apply newer_lex_equal.
Qed.

Lemma has_newer_fw_first_difference_witness :
  (has_newer_fw "5.12.1" "5.13.0" = Return true \/
   has_newer_fw "5.12.1" "5.13.0" = Return false) /\
  (has_newer_fw "5.12.1" "5.13.0" = Return true <->
   exists i, (i < List.length [5; 12; 1])%nat /\
             (forall j, (j < i)%nat -> nth j [5; 12; 1] 0 = nth j [5; 13; 0] 0) /\
             nth i [5; 12; 1] 0 < nth i [5; 13; 0] 0) /\
  ((forall j, nth j [5; 12; 1] 0 = nth j [5; 13; 0] 0) ->
   has_newer_fw "5.12.1" "5.13.0" = Return false) /\
  has_newer_fw "1.20.0" "1.3.0" = Return false /\
  has_newer_fw "1.3.0" "1.20.0" = Return true.
Proof.
  apply (has_newer_fw_first_difference "5.12.1" "5.13.0" [5; 12; 1] [5; 13; 0]);
    reflexivity.
Defined.

(** C2: when the two strings split into different numbers of components,
    [has_newer_fw] leaves through [sys.exit(1)] whatever the components are,
    and nothing is handed to the code that called it. *)
Theorem has_newer_fw_count_mismatch (current_fw bundled_fw : string) :
  List.length (split_on "." current_fw) <> List.length (split_on "." bundled_fw) ->
  has_newer_fw current_fw bundled_fw = SysExit 1 /\
  forall (A : Type) (k : bool -> result A),
    bind (has_newer_fw current_fw bundled_fw) k = SysExit 1.
Proof.
  intros Hlen.
  pose proof (has_newer_fw_exits _ _ Hlen) as H.
  split; [exact H|]. intros A k. now rewrite H.
Qed.

Lemma has_newer_fw_count_mismatch_witness :
  has_newer_fw "1.2" "1.2.0" = SysExit 1 /\
  forall (A : Type) (k : bool -> result A),
    bind (has_newer_fw "1.2" "1.2.0") k = SysExit 1.
Proof.
  apply (has_newer_fw_count_mismatch "1.2" "1.2.0"). simpl. lia.
Defined.

(** C8: a version string compared with itself gives [False]. *)
Theorem has_newer_fw_same_version (fw : string) (ds : list Z) :
  version_of fw = Some ds ->
  has_newer_fw fw fw = Return false.
Proof.
  intros H. rewrite (has_newer_fw_lex fw fw ds ds H H eq_refl).
  now rewrite newer_lex_irrefl.
Qed.

Lemma has_newer_fw_same_version_witness :
  has_newer_fw "5.13.0" "5.13.0" = Return false.
Proof.
  apply (has_newer_fw_same_version "5.13.0" [5; 13; 0]). reflexivity.
Defined.

(** * [get_bundled_fw_version] *)

Section Get_bundled_fw_version.

Lemma substring_0_app (m r : string) :
  substring 0 (String.length m) (m ++ r) = m.
Proof.
  induction m as [|c m IH]; simpl.
  - now destruct r.
  - now rewrite IH.
Qed.

Lemma length_snoc (m : string) (b : ascii) :
  String.length (m ++ String b "") = S (String.length m).
Proof. induction m as [|c m IH]; cbn; [reflexivity | now f_equal]. Qed.

(** [w[1:-1]] drops the first and the last character, whatever they are. *)
Lemma slice_1_m1 (a b : ascii) (mid : string) :
  slice (String a (mid ++ String b "")) 1 (-1) = mid.
Proof.
  unfold slice. cbn [String.length]. rewrite length_snoc.
  set (n := String.length mid).
  replace (1 <? 0) with false by reflexivity.
  replace (-1 <? 0) with true by reflexivity.
  replace (Z.min 1 (Z.of_nat (S (S n)))) with 1 by lia.
  replace (Z.max 0 (-1 + Z.of_nat (S (S n))) - 1) with (Z.of_nat n) by lia.
  rewrite Nat2Z.id. change (Z.to_nat 1) with 1%nat.
  cbn [substring]. apply substring_0_app.
Qed.

Lemma slice_0_2 (a b : ascii) (tail : string) :
  slice (String a (String b tail)) 0 2 = String a (String b "").
Proof.
  unfold slice. cbn [String.length].
  replace (0 <? 0) with false by reflexivity.
  replace (2 <? 0) with false by reflexivity.
  replace (Z.min 0 _) with 0 by lia.
  replace (Z.min 2 _) with 2 by lia.
  change (Z.to_nat (2 - 0)) with 2%nat. change (Z.to_nat 0) with 0%nat.
  cbn [substring]. now destruct tail.
Qed.

Variable product_line : string.
Let prefix := slice product_line 0 2.

Lemma loop_hit (line w1 w2 : string) (more rest : list string) :
  split_ws line = "#define" :: w1 :: w2 :: more ->
  str_in prefix w1 = true ->
  get_bundled_fw_version_loop (line :: rest) product_line
  = Return (Some (slice w2 1 (-1))).
Proof.
  intros Hw Hin. cbn [get_bundled_fw_version_loop]. rewrite Hw.
  cbn. fold prefix. now rewrite Hin.
Qed.

Lemma loop_skip (line : string) (rest : list string) :
  enough_tokens prefix line = true ->
  qualifies prefix line = false ->
  get_bundled_fw_version_loop (line :: rest) product_line
  = get_bundled_fw_version_loop rest product_line.
Proof.
  unfold enough_tokens, qualifies. intros He Hq.
  cbn [get_bundled_fw_version_loop].
  destruct (split_ws line) as [|w0 ws]; [reflexivity|].
  cbn [List.length Nat.eqb getitem nth_error bind].
  destruct (String.eqb w0 "#define"); [|reflexivity].
  cbn [negb]. destruct ws as [|w1 [|w2 more]]; [discriminate| |].
  - cbn. fold prefix. apply negb_true_iff in He. now rewrite He.
  - cbn. fold prefix. cbn in Hq. now rewrite Hq.
Qed.

Lemma loop_skip_other (line : string) (rest : list string) :
  hd_error (split_ws line) <> Some "#define" ->
  get_bundled_fw_version_loop (line :: rest) product_line
  = get_bundled_fw_version_loop rest product_line.
Proof.
  intros Hhd. cbn [get_bundled_fw_version_loop].
  destruct (split_ws line) as [|w0 ws]; [reflexivity|].
  cbn [List.length Nat.eqb getitem nth_error bind].
  destruct (String.eqb w0 "#define") eqn:E; [|reflexivity].
  apply String.eqb_eq in E; subst w0. now elim Hhd.
Qed.

Lemma loop_bare_define (line : string) (rest : list string) :
  split_ws line = ["#define"] ->
  get_bundled_fw_version_loop (line :: rest) product_line = Raise IndexError.
Proof.
  intros Hw. cbn [get_bundled_fw_version_loop]. now rewrite Hw.
Qed.

Lemma loop_no_version (line w1 : string) (rest : list string) :
  split_ws line = ["#define"; w1] ->
  str_in prefix w1 = true ->
  get_bundled_fw_version_loop (line :: rest) product_line = Raise IndexError.
Proof.
  intros Hw Hin. cbn [get_bundled_fw_version_loop]. rewrite Hw.
  cbn. fold prefix. now rewrite Hin.
Qed.

Lemma loop_skip_all (pre rest : list string) :
  Forall (fun l => enough_tokens prefix l = true /\ qualifies prefix l = false) pre ->
  get_bundled_fw_version_loop (pre ++ rest) product_line
  = get_bundled_fw_version_loop rest product_line.
Proof.
  induction 1 as [|l pre [He Hq] _ IH]; [reflexivity|].
  cbn [app]. now rewrite loop_skip.
Qed.

Lemma qualifies_tokens (line : string) :
  qualifies prefix line = true ->
  enough_tokens prefix line = true ->
  exists w1 w2 more,
    split_ws line = "#define" :: w1 :: w2 :: more /\ str_in prefix w1 = true.
Proof.
  unfold qualifies, enough_tokens.
  destruct (split_ws line) as [|w0 [|w1 ws]]; try discriminate.
  intros Hq He. apply andb_true_iff in Hq as [H0 H1].
  rewrite H0 in He. apply String.eqb_eq in H0; subst w0.
  destruct ws as [|w2 more].
  - rewrite H1 in He; discriminate.
  - now exists w1, w2, more.
Qed.

Lemma loop_lookup (lines : list string) :
  Forall (fun l => enough_tokens prefix l = true)
         (up_to_first (qualifies prefix) lines) ->
  get_bundled_fw_version_loop lines product_line
  = Return (manifest_lookup lines prefix).
Proof.
  induction lines as [|line rest IH]; intros Hall; [reflexivity|].
  unfold manifest_lookup. cbn [up_to_first List.find] in *.
  destruct (qualifies prefix line) eqn:Hq.
  - inversion Hall as [|? ? He _]; subst.
    destruct (qualifies_tokens line Hq He) as (w1 & w2 & more & Hw & Hin).
    rewrite (loop_hit line w1 w2 more rest Hw Hin).
    unfold version_token. now rewrite Hw.
  - inversion Hall as [|? ? He Hrest]; subst.
    rewrite (loop_skip line rest He Hq). now apply IH.
Qed.

End Get_bundled_fw_version.

(** C3, amended: when every line read up to and including the first
    qualifying one has the tokens the reader indexes, the result is the
    version token of the first line whose first token is [#define] and
    whose second token contains the first two characters of the product
    line; other lines are skipped, and the result is [None] when no line
    qualifies. *)
Theorem get_bundled_fw_version_first_define (fw_versions product_line : string) :
  Forall (fun l => enough_tokens (slice product_line 0 2) l = true)
         (up_to_first (qualifies (slice product_line 0 2))
                      (manifest_lines fw_versions)) ->
  get_bundled_fw_version fw_versions product_line
  = Return (manifest_lookup (manifest_lines fw_versions) (slice product_line 0 2)) /\
  ((forall line, In line (manifest_lines fw_versions) ->
                 qualifies (slice product_line 0 2) line = false) ->
   get_bundled_fw_version fw_versions product_line = Return None) /\
  (forall line rest, hd_error (split_ws line) <> Some "#define" ->
                     get_bundled_fw_version_loop (line :: rest) product_line
                     = get_bundled_fw_version_loop rest product_line).
Proof.
  intros Hall.
  pose proof (loop_lookup product_line _ Hall) as Hloop.
  change (get_bundled_fw_version_loop (manifest_lines fw_versions) product_line)
    with (get_bundled_fw_version fw_versions product_line) in Hloop.
  repeat split.
  - exact Hloop.
  - intros Hnone. rewrite Hloop.
    unfold manifest_lookup.
    destruct (List.find _ _) as [line|] eqn:Hfind; [|reflexivity].
    apply find_some in Hfind as [Hin Hq].
    rewrite (Hnone line Hin) in Hq. discriminate.
  - intros line rest Hhd. now apply loop_skip_other.
Qed.

Lemma get_bundled_fw_version_first_define_witness :
  get_bundled_fw_version sample_manifest "D400" = Return (Some "5.13.0").
Proof.
  refine (proj1 (get_bundled_fw_version_first_define sample_manifest "D400" _)).
  repeat constructor.
Defined.

(** C3 as stated fails: in a manifest made of a bare [#define] no line
    qualifies, and the reader does not return [None]. *)
Lemma get_bundled_fw_version_bare_define :
  manifest_lookup (manifest_lines "#define") (slice "D400" 0 2) = None /\
  get_bundled_fw_version "#define" "D400"
  <> Return (manifest_lookup (manifest_lines "#define") (slice "D400" 0 2)).
Proof. split; [reflexivity|discriminate]. Qed.

(** C9: a [#define] line with fewer than three tokens makes the reader fail
    with an index error: a bare [#define] for every product line, and
    [#define D4XX_FOO] for every product line that starts with D4. *)
Theorem get_bundled_fw_version_index_error :
  (forall rest product_line,
      get_bundled_fw_version ("#define" ++ String LF rest) product_line
      = Raise IndexError) /\
  (forall product_line, get_bundled_fw_version "#define" product_line = Raise IndexError) /\
  (forall rest tail,
      get_bundled_fw_version ("#define D4XX_FOO" ++ String LF rest) ("D4" ++ tail)
      = Raise IndexError) /\
  (forall tail, get_bundled_fw_version "#define D4XX_FOO" ("D4" ++ tail)
                = Raise IndexError).
Proof.
  split; [|split; [|split]]; intros.
  - reflexivity.
  - reflexivity.
  - unfold get_bundled_fw_version.
    cbn [append universal_newlines file_lines Ascii.eqb Bool.eqb CR LF].
    apply loop_no_version with (w1 := "D4XX_FOO"); [reflexivity|].
    now rewrite slice_0_2.
  - unfold get_bundled_fw_version.
    cbn [append universal_newlines file_lines Ascii.eqb Bool.eqb CR LF].
    apply loop_no_version with (w1 := "D4XX_FOO"); [reflexivity|].
    now rewrite slice_0_2.
Qed.

(** C10: the value returned for a matching line is its third token without
    its first and last character, whether or not these are double quotes;
    for [#define D4XX_FW_VERSION 5.13.0] it is [.13.]. *)
Theorem get_bundled_fw_version_strips_blindly
  (fw_versions product_line line w1 w2 : string) (pre rest more : list string) :
  manifest_lines fw_versions = (pre ++ line :: rest)%list ->
  Forall (fun l => enough_tokens (slice product_line 0 2) l = true /\
                   qualifies (slice product_line 0 2) l = false) pre ->
  split_ws line = "#define" :: w1 :: w2 :: more ->
  str_in (slice product_line 0 2) w1 = true ->
  get_bundled_fw_version fw_versions product_line = Return (Some (slice w2 1 (-1))) /\
  forall a b mid, w2 = String a (mid ++ String b "") ->
                  get_bundled_fw_version fw_versions product_line = Return (Some mid).
Proof.
  intros Hlines Hpre Hw Hin.
  assert (H : get_bundled_fw_version fw_versions product_line
              = Return (Some (slice w2 1 (-1)))).
  { unfold get_bundled_fw_version. fold (manifest_lines fw_versions).
    rewrite Hlines, (loop_skip_all product_line pre _ Hpre).
    now apply loop_hit with (w1 := w1) (more := more). }
  split; [exact H|].
  intros a b mid ->. now rewrite H, slice_1_m1.
Qed.

Lemma get_bundled_fw_version_strips_blindly_witness :
  get_bundled_fw_version "#define D4XX_FW_VERSION 5.13.0" "D400" = Return (Some ".13.").
Proof.
  refine (proj2 (get_bundled_fw_version_strips_blindly
                   "#define D4XX_FW_VERSION 5.13.0" "D400"
                   "#define D4XX_FW_VERSION 5.13.0" "D4XX_FW_VERSION" "5.13.0"
                   [] [] [] _ _ _ _) "5"%char "0"%char ".13." _);
    first [reflexivity | constructor].
Defined.

(** * The file search *)

Section Find.

Lemma find_updater (leafs : list string) :
  find leafs updater_mask
  = Return (filter (fun leaf => Re.search updater_pattern leaf) leafs).
Proof. reflexivity. Qed.

Lemma updater_match_nonempty (leafs : list string) (file : string) :
  In file (filter (fun leaf => Re.search updater_pattern leaf) leafs) ->
  file <> EmptyString.
Proof.
  intros Hin ->. apply filter_In in Hin as [_ H]. discriminate H.
Qed.

Variable w : World.

Lemma fold_keeps_last (files : list string) (acc : option string) :
  fold_left (fun _ file => Some (os_path_join w (librealsense w) file)) files acc
  = match files with
    | [] => acc
    | _ :: _ => Some (os_path_join w (librealsense w) (last files EmptyString))
    end.
Proof.
  revert acc; induction files as [|f files IH]; intros acc; [reflexivity|].
  cbn [fold_left]. rewrite IH. destruct files; reflexivity.
Qed.

Lemma keep_joined_last (files : list string) :
  keep_joined w files
  = match files with
    | [] => None
    | _ :: _ => Some (os_path_join w (librealsense w) (last files EmptyString))
    end.
Proof. apply fold_keeps_last. Qed.

Lemma keep_joined_overwrites (files : list string) (file : string) :
  keep_joined w (files ++ [file]) = Some (os_path_join w (librealsense w) file).
Proof.
  rewrite keep_joined_last, last_last. now destruct files.
Qed.

Lemma truthy_keep_joined (files : list string) :
  truthy (keep_joined w files) = true -> files <> [].
Proof. intros H ->. discriminate H. Qed.

Lemma keep_joined_truthy (files : list string) :
  join_nonempty w ->
  files <> [] ->
  last files EmptyString <> EmptyString ->
  truthy (keep_joined w files) = true.
Proof.
  intros Hjoin Hne Hlast. rewrite keep_joined_last.
  destruct files as [|f files]; [now elim Hne|].
  specialize (Hjoin _ Hlast). cbn [truthy].
  now destruct (os_path_join w (librealsense w) (last (f :: files) "")).
Qed.

End Find.

Lemma last_In {A : Type} (l : list A) (d : A) : l <> [] -> In (last l d) l.
Proof.
  induction l as [|x l IH]; intros H; [now elim H|].
  destruct l as [|y l]; [now left|]. right. apply IH. discriminate.
Qed.

(** A path that ends in [/rs-fw-update.exe] passes [updater_mask], whatever
    precedes. *)
Lemma search_from_updater_in_dir (dir : string) (b : bool) :
  Re.search_from updater_pattern b (dir ++ "/rs-fw-update.exe") = true.
Proof.
  revert b; induction dir as [|c dir IH]; intros b.
  - destruct b; reflexivity.
  - change (String c dir ++ "/rs-fw-update.exe")
      with (String c (dir ++ "/rs-fw-update.exe")).
    cbn [Re.search_from]. rewrite IH. apply orb_true_r.
Qed.

Lemma search_updater_in_dir (dir : string) :
  Re.search updater_pattern (dir ++ "/rs-fw-update.exe") = true.
Proof. apply search_from_updater_in_dir. Qed.

(** C6: the masks are anchored at a component boundary, but a path whose
    final component is not the name can pass them: the [.] of the name
    stands for any character. Of [rs-fw-update.exe], [foo/rs-fw-update.exe],
    [foo/not-rs-fw-update.exe] and [foo/rs-fw-update_exe], [find] with the
    updater's mask yields all but the third; with the image mask of product
    line D400 and version 5.13.0 it yields [fw/D4XX_FW_Image-5x13y0zbin]. *)
Theorem find_accepts_other_names :
  find ["rs-fw-update.exe"; "foo/rs-fw-update.exe"; "foo/not-rs-fw-update.exe";
        "foo/rs-fw-update_exe"] updater_mask
  = Return ["rs-fw-update.exe"; "foo/rs-fw-update.exe"; "foo/rs-fw-update_exe"] /\
  basename "foo/rs-fw-update_exe" <> "rs-fw-update.exe" /\
  find ["fw/D4XX_FW_Image-5.13.0.bin"; "fw/D4XX_FW_Image-5x13y0zbin"]
       (image_mask "D400" "5.13.0")
  = Return ["fw/D4XX_FW_Image-5.13.0.bin"; "fw/D4XX_FW_Image-5x13y0zbin"] /\
  basename "fw/D4XX_FW_Image-5x13y0zbin" <> image_name "D400" "5.13.0".
Proof.
  split; [reflexivity|]. split; [discriminate|].
  split; [reflexivity|discriminate].
Qed.

(** * The script *)

Section Script.

Variable w : World.

Let ups := filter (fun leaf => Re.search updater_pattern leaf) (filesin w).

(** The run once the manifest file, the updater and the single device have
    been found. *)
Lemma script_past_device (fw_versions : string) (device : Device) :
  fw_versions_file w = Some fw_versions ->
  devices_all w = [device] ->
  truthy (keep_joined w ups) = true ->
  script w =
  (bundled <- get_bundled_fw_version fw_versions (product_line device) ;;
   if negb (truthy bundled) then SysExit 1
   else
     newer <- has_newer_fw (firmware_version device) (str_of bundled) ;;
     if negb newer then SysExit 0
     else
       files' <- find (filesin w) (image_mask (product_line device) (str_of bundled)) ;;
       if negb (truthy (keep_joined w files')) then SysExit 1
       else Return [str_of (keep_joined w ups); "-f"; str_of (keep_joined w files')]).
Proof.
  intros Hfw Hdev Hups. unfold script.
  rewrite Hfw, find_updater. cbn [bind]. fold ups. rewrite Hups, Hdev.
  reflexivity.
Qed.

(** Without the updater, or with a device count other than one, the run
    stops before the manifest is read. *)
Lemma script_before_device :
  truthy (keep_joined w ups) = false \/ List.length (devices_all w) <> 1%nat ->
  script w = SysExit 1.
Proof.
  intros H. unfold script.
  destruct (fw_versions_file w); [|reflexivity].
  rewrite find_updater. cbn [bind]. fold ups.
  destruct (truthy (keep_joined w ups)); [|reflexivity].
  destruct H as [H|H]; [discriminate|].
  apply Nat.eqb_neq in H. now rewrite H.
Qed.

Lemma updater_found_truthy (files : list string) :
  join_nonempty w ->
  find (filesin w) updater_mask = Return files ->
  files <> [] ->
  truthy (keep_joined w ups) = true.
Proof.
  intros Hjoin Hfind Hne. rewrite find_updater in Hfind.
  injection Hfind as <-. fold ups in Hne.
  apply keep_joined_truthy; [assumption..|].
  apply (updater_match_nonempty (filesin w)). now apply last_In.
Qed.

Lemma script_exit_cases (c : Z) :
  join_nonempty w -> exit_case w c -> script w = SysExit c.
Proof.
  intros Hjoin Hcase.
  destruct (truthy (keep_joined w ups)) eqn:Hups;
    [|destruct Hcase; try (apply script_before_device; now left)].
  - destruct Hcase
      as [Hfw | Hfind | Hcount
          | fw device Hfw Hdev Hget
          | fw device bundled Hfw Hdev Hget Hlen
          | fw device bundled cs bs Hfw Hdev Hget Hcs Hbs Hlen Hlex Hfind
          | fw device bundled files cs bs Hfw Hfind Hne Hdev Hget Hcs Hbs Hlen Hlex].
    + unfold script. now rewrite Hfw.
    + rewrite find_updater in Hfind. injection Hfind as Hfind.
      fold ups in Hfind. rewrite Hfind in Hups. discriminate.
    + apply script_before_device. now right.
    + rewrite (script_past_device fw device Hfw Hdev Hups), Hget. reflexivity.
    + rewrite (script_past_device fw device Hfw Hdev Hups), Hget. cbn [bind].
      destruct bundled as [|ch bundled]; [reflexivity|].
      cbn [truthy negb str_of]. now rewrite (has_newer_fw_exits _ _ Hlen).
    + rewrite (script_past_device fw device Hfw Hdev Hups), Hget. cbn [bind].
      destruct bundled as [|ch bundled]; [reflexivity|].
      cbn [truthy negb str_of].
      rewrite (has_newer_fw_lex _ _ cs bs Hcs Hbs), Hlex.
      * cbn [bind negb]. rewrite Hfind. reflexivity.
      * now rewrite <- (version_digits_length _ _ Hcs),
          <- (version_digits_length _ _ Hbs).
    + rewrite (script_past_device fw device Hfw Hdev Hups), Hget. cbn [bind].
      pose proof (version_of_nonempty _ _ Hbs) as Hb.
      destruct bundled as [|ch bundled]; [now elim Hb|].
      cbn [truthy negb str_of].
      rewrite (has_newer_fw_lex _ _ cs bs Hcs Hbs), Hlex; [reflexivity|].
      now rewrite <- (version_digits_length _ _ Hcs), <- (version_digits_length _ _ Hbs).
  - match goal with
    | Hfind : find _ _ = Return ?files, Hne : ?files <> [] |- _ =>
        rewrite (updater_found_truthy files Hjoin Hfind Hne) in Hups
    end.
    discriminate.
Qed.

(** What a run that reaches [subprocess.run] passes to it. *)
Lemma script_launch (argv : list string) :
  script w = Return argv ->
  exists fw_versions device bundled imgs,
    fw_versions_file w = Some fw_versions /\
    devices_all w = [device] /\
    get_bundled_fw_version fw_versions (product_line device) = Return (Some bundled) /\
    has_newer_fw (firmware_version device) bundled = Return true /\
    find (filesin w) (image_mask (product_line device) bundled) = Return imgs /\
    ups <> [] /\ imgs <> [] /\
    argv = [os_path_join w (librealsense w) (last ups EmptyString); "-f";
            os_path_join w (librealsense w) (last imgs EmptyString)].
Proof.
  intros H.
  destruct (truthy (keep_joined w ups)) eqn:Hups;
    [|rewrite script_before_device in H by (now left); discriminate].
  destruct (fw_versions_file w) as [fw|] eqn:Hfw;
    [|unfold script in H; rewrite Hfw in H; discriminate].
  destruct (devices_all w) as [|device [|d2 ds]] eqn:Hdev;
    try (rewrite script_before_device in H by (right; rewrite Hdev; discriminate);
         discriminate).
  rewrite (script_past_device fw device Hfw Hdev Hups) in H.
  destruct (get_bundled_fw_version fw (product_line device))
    as [[[|ch bundled]|]| | |] eqn:Hget; try discriminate H.
  cbn [bind truthy negb str_of] in H.
  destruct (has_newer_fw (firmware_version device) (String ch bundled))
    as [[|]| | |] eqn:Hnewer; try discriminate H.
  cbn [bind negb] in H.
  destruct (find (filesin w) (image_mask (product_line device) (String ch bundled)))
    as [imgs| | |] eqn:Himg; try discriminate H.
  cbn [bind] in H.
  destruct (truthy (keep_joined w imgs)) eqn:Himgs; try discriminate H.
  cbn [negb] in H. injection H as <-.
  exists fw, device, (String ch bundled), imgs.
  pose proof (truthy_keep_joined w _ Hups) as Hu.
  pose proof (truthy_keep_joined w _ Himgs) as Hi.
  repeat (split; [assumption || reflexivity|]).
  rewrite !keep_joined_last.
  destruct ups; [now elim Hu|]. destruct imgs; [now elim Hi|]. reflexivity.
Qed.

End Script.

Lemma posix_join_nonempty (root : string) :
  forall file, file <> EmptyString -> posix_join root file <> EmptyString.
Proof.
  intros file Hne. unfold posix_join.
  destruct (prefix "/" file); [assumption|].
  destruct file as [|c file]; [now elim Hne|].
  destruct (_ || _); destruct root; discriminate.
Qed.

Lemma sample_world_join (fw_versions : option string) (leafs : list string)
  (devices : list Device) :
  join_nonempty (sample_world fw_versions leafs devices).
Proof. intros file. apply posix_join_nonempty. Qed.

(** C5: the exit code is 1 when the manifest file is absent, when no file
    passes the updater's mask, when the number of devices is not one, when
    the manifest has no entry for the device's family, when the device's
    version and the bundled one have different numbers of components, and
    when an update is needed and no file passes the image mask; it is 0
    when manifest, updater and the single device are there and the device's
    version is not older than the bundled one. *)
Theorem script_exit_code (w : World) (c : Z) :
  join_nonempty w -> exit_case w c -> script w = SysExit c.
Proof. apply script_exit_cases. Qed.

Lemma script_exit_code_witness :
  script (sample_world (Some sample_manifest) sample_tree [sample_device "5.13.0"])
  = SysExit 0 /\
  script (sample_world None sample_tree [sample_device "5.12.1"]) = SysExit 1 /\
  script (sample_world (Some sample_manifest) ["README.md"] [sample_device "5.12.1"])
  = SysExit 1 /\
  script (sample_world (Some sample_manifest) sample_tree []) = SysExit 1 /\
  script (sample_world (Some "#pragma once") sample_tree [sample_device "5.12.1"])
  = SysExit 1 /\
  script (sample_world (Some sample_manifest) sample_tree [sample_device "5.12"])
  = SysExit 1 /\
  script (sample_world (Some sample_manifest) ["build/rs-fw-update.exe"]
            [sample_device "5.12.1"]) = SysExit 1.
Proof.
  split; [|split; [|split; [|split; [|split; [|split]]]]];
    apply script_exit_code; try apply sample_world_join.
  - apply (no_update_needed _ sample_manifest (sample_device "5.13.0") "5.13.0"
             ["build/Debug/rs-fw-update.exe"; "build/Release/rs-fw-update.exe"]
             [5; 13; 0] [5; 13; 0]);
      first [reflexivity | discriminate].
  - apply manifest_absent. reflexivity.
  - apply updater_not_found. reflexivity.
  - apply device_count_not_one. discriminate.
  - apply (no_bundled_version _ "#pragma once" (sample_device "5.12.1")); reflexivity.
  - apply (component_count_mismatch _ sample_manifest (sample_device "5.12") "5.13.0");
      first [reflexivity | discriminate].
  - apply (image_not_found _ sample_manifest (sample_device "5.12.1") "5.13.0"
             [5; 12; 1] [5; 13; 0]); reflexivity.
Defined.

(** C7: a run that reaches [subprocess.run] passes it the last path, in
    the order of the walk, that passed the updater's mask, and the last path
    that passed the image mask, each joined to the root; in both loops each
    match replaces the path stored before. *)
Theorem script_keeps_last_match (w : World) (argv : list string) :
  script w = Return argv ->
  exists device bundled updaters images,
    devices_all w = [device] /\
    find (filesin w) updater_mask = Return updaters /\
    find (filesin w) (image_mask (product_line device) bundled) = Return images /\
    updaters <> [] /\ images <> [] /\
    argv = [os_path_join w (librealsense w) (last updaters EmptyString); "-f";
            os_path_join w (librealsense w) (last images EmptyString)] /\
    forall files file,
      keep_joined w (files ++ [file]) = Some (os_path_join w (librealsense w) file).
Proof.
  intros H.
  destruct (script_launch w argv H)
    as (fw & device & bundled & imgs & _ & Hdev & _ & _ & Himg & Hu & Hi & Hargv).
  exists device, bundled,
    (filter (fun leaf => Re.search updater_pattern leaf) (filesin w)), imgs.
  repeat (split; [first [assumption | apply find_updater]|]).
  apply keep_joined_overwrites.
Qed.

Lemma script_keeps_last_match_witness :
  exists device bundled updaters images,
    devices_all (sample_world (Some sample_manifest) sample_tree [sample_device "5.12.1"])
    = [device] /\
    find sample_tree updater_mask = Return updaters /\
    find sample_tree (image_mask (product_line device) bundled) = Return images /\
    updaters <> [] /\ images <> [] /\
    [ "/home/ci/librealsense/build/Release/rs-fw-update.exe"; "-f";
      "/home/ci/librealsense/build/common/fw/D4XX_FW_Image-5.13.0.bin" ]
    = [posix_join "/home/ci/librealsense" (last updaters EmptyString); "-f";
       posix_join "/home/ci/librealsense" (last images EmptyString)] /\
    forall files file,
      keep_joined (sample_world (Some sample_manifest) sample_tree [sample_device "5.12.1"])
                  (files ++ [file])
      = Some (posix_join "/home/ci/librealsense" file).
Proof.
  apply (script_keeps_last_match
           (sample_world (Some sample_manifest) sample_tree [sample_device "5.12.1"])).
  vm_compute. reflexivity.
Defined.

(** C4: with a device of a D4 product line that reports 5.12.1 and a
    manifest whose first line for that family is
    [#define D4XX_FW_VERSION "5.13.0"], the bundled version read is 5.13.0,
    an update is needed, and the image name, built as the first two
    characters of the product line, [XX_FW_Image-], the bundled version and
    [.bin], is [D4XX_FW_Image-5.13.0.bin]; the run goes on to look for that
    name. *)
Theorem end_to_end_update_needed (w : World) (device : Device)
  (fw_versions tail line : string) (pre rest : list string) :
  fw_versions_file w = Some fw_versions ->
  manifest_lines fw_versions = (pre ++ line :: rest)%list ->
  Forall (fun l => enough_tokens "D4" l = true /\ qualifies "D4" l = false) pre ->
  line = d4_define_line \/ line = d4_define_line ++ String LF "" ->
  devices_all w = [device] ->
  firmware_version device = "5.12.1" ->
  product_line device = "D4" ++ tail ->
  get_bundled_fw_version fw_versions (product_line device) = Return (Some "5.13.0") /\
  has_newer_fw (firmware_version device) "5.13.0" = Return true /\
  image_name (product_line device) "5.13.0" = "D4XX_FW_Image-5.13.0.bin" /\
  (forall product_line bundled_fw_version,
      image_name product_line bundled_fw_version
      = slice product_line 0 2 ++ "XX_FW_Image-" ++ bundled_fw_version ++ ".bin") /\
  (forall updaters,
      find (filesin w) updater_mask = Return updaters ->
      truthy (keep_joined w updaters) = true ->
      script w =
      (images <- find (filesin w) "(^|/)D4XX_FW_Image-5.13.0.bin$" ;;
       if negb (truthy (keep_joined w images)) then SysExit 1
       else Return [str_of (keep_joined w updaters); "-f";
                    str_of (keep_joined w images)])).
Proof.
  intros Hfw Hlines Hpre Hline Hdev Hcur Hpl.
  assert (Hprefix : slice (product_line device) 0 2 = "D4").
  { rewrite Hpl. apply slice_0_2. }
  assert (Hget : get_bundled_fw_version fw_versions (product_line device)
                 = Return (Some "5.13.0")).
  { unfold get_bundled_fw_version. fold (manifest_lines fw_versions).
    rewrite Hlines, loop_skip_all by (now rewrite Hprefix).
    change (Some "5.13.0") with (Some (slice (quoted "5.13.0") 1 (-1))).
    apply loop_hit with (w1 := "D4XX_FW_VERSION") (more := []).
    - destruct Hline as [-> | ->]; reflexivity.
    - now rewrite Hprefix. }
  assert (Hname : image_name (product_line device) "5.13.0" = "D4XX_FW_Image-5.13.0.bin").
  { unfold image_name. now rewrite Hprefix. }
  split; [exact Hget|]. split; [now rewrite Hcur|]. split; [exact Hname|].
  split; [reflexivity|].
  intros updaters Hfind Hups. rewrite find_updater in Hfind. injection Hfind as <-.
  rewrite (script_past_device w fw_versions device Hfw Hdev Hups), Hget.
  cbn [bind truthy negb str_of]. rewrite Hcur.
  change (has_newer_fw "5.12.1" "5.13.0") with (@Return bool true).
  cbn [bind negb]. unfold image_mask. rewrite Hname. reflexivity.
Qed.

Lemma end_to_end_update_needed_witness :
  get_bundled_fw_version sample_manifest "D400" = Return (Some "5.13.0") /\
  has_newer_fw "5.12.1" "5.13.0" = Return true /\
  image_name "D400" "5.13.0" = "D4XX_FW_Image-5.13.0.bin".
Proof.
  pose proof (end_to_end_update_needed
                (sample_world (Some sample_manifest) sample_tree [sample_device "5.12.1"])
                (sample_device "5.12.1") sample_manifest "00"
                (d4_define_line ++ String LF "")
                (firstn 5 (manifest_lines sample_manifest))
                (skipn 6 (manifest_lines sample_manifest))
                eq_refl eq_refl) as H.
  destruct H as (Hget & Hnewer & Hname & _).
  - repeat constructor.
  - now right.
  - reflexivity.
  - reflexivity.
  - reflexivity.
  - exact (conj Hget (conj Hnewer Hname)).
Defined.

(** Every case of [exit_case] occurs. *)
Lemma exit_case_samples :
  exit_case (sample_world None sample_tree [sample_device "5.12.1"]) 1 /\
  exit_case (sample_world (Some sample_manifest) ["README.md"] [sample_device "5.12.1"]) 1 /\
  exit_case (sample_world (Some sample_manifest) sample_tree []) 1 /\
  exit_case (sample_world (Some "#pragma once") sample_tree [sample_device "5.12.1"]) 1 /\
  exit_case (sample_world (Some sample_manifest) sample_tree [sample_device "5.12"]) 1 /\
  exit_case (sample_world (Some sample_manifest) ["build/rs-fw-update.exe"]
               [sample_device "5.12.1"]) 1 /\
  exit_case (sample_world (Some sample_manifest) sample_tree [sample_device "6.0.0"]) 0.
Proof.
  split; [now apply manifest_absent|].
  split; [now apply updater_not_found|].
  split; [apply device_count_not_one; discriminate|].
  split; [now apply (no_bundled_version _ "#pragma once" (sample_device "5.12.1"))|].
  split; [apply (component_count_mismatch _ sample_manifest (sample_device "5.12") "5.13.0");
          first [reflexivity | discriminate]|].
  split; [now apply (image_not_found _ sample_manifest (sample_device "5.12.1") "5.13.0"
                       [5; 12; 1] [5; 13; 0])|].
  apply (no_update_needed _ sample_manifest (sample_device "6.0.0") "5.13.0"
           ["build/Debug/rs-fw-update.exe"; "build/Release/rs-fw-update.exe"]
           [6; 0; 0] [5; 13; 0]);
    first [reflexivity | discriminate].
Qed.

(** * More on [has_newer_fw] *)

Section Order.

Lemma split_on_length (sep : ascii) (s : string) :
  List.length (split_on sep s) = S (count_char sep s).
Proof.
  induction s as [|c s IH]; [reflexivity|]. cbn [split_on count_char].
  destruct (Ascii.eqb c sep).
  - cbn [List.length]. now rewrite IH.
  - destruct (split_on sep s) as [|w ws]; [discriminate IH|]. exact IH.
Qed.

Lemma has_newer_fw_loop_no_exit (digits : list (string * string)) (c : Z) :
  has_newer_fw_loop digits <> SysExit c.
Proof.
  induction digits as [|[curr bundled] rest IH]; [discriminate|].
  cbn [has_newer_fw_loop]. unfold int.
  destruct (int_literal bundled) as [b|]; [|discriminate].
  destruct (int_literal curr) as [z|]; [|discriminate].
  cbn [bind]. destruct (b >? z); [discriminate|].
  destruct (b <? z); [discriminate|exact IH].
Qed.

Lemma has_newer_fw_same_length (current_fw bundled_fw : string) :
  List.length (split_on "." current_fw) = List.length (split_on "." bundled_fw) ->
  has_newer_fw current_fw bundled_fw
  = has_newer_fw_loop (combine (split_on "." current_fw) (split_on "." bundled_fw)).
Proof. intros H. unfold has_newer_fw. now rewrite H, Nat.eqb_refl. Qed.

(** The loop over a common prefix of equal numbers goes on to what follows. *)
Lemma has_newer_fw_loop_common (pc pb : list string) (ds : list Z)
  (rest : list (string * string)) :
  version_digits pc = Some ds ->
  version_digits pb = Some ds ->
  has_newer_fw_loop (combine pc pb ++ rest) = has_newer_fw_loop rest.
Proof.
  revert pb ds; induction pc as [|cw pc IH]; intros pb ds Hc Hb; cbn in Hc.
  - injection Hc as <-. destruct pb as [|bw pb]; [reflexivity|]. cbn in Hb.
    destruct (int_literal bw); [|discriminate].
    destruct (version_digits pb); discriminate.
  - destruct (int_literal cw) as [z|] eqn:Ez; [|discriminate].
    destruct (version_digits pc) as [zs|] eqn:Ezs; [|discriminate].
    injection Hc as <-. destruct pb as [|bw pb]; [discriminate|]. cbn in Hb.
    destruct (int_literal bw) as [z'|] eqn:Ez'; [|discriminate].
    destruct (version_digits pb) as [zs'|] eqn:Ezs'; [|discriminate].
    injection Hb as -> ->.
    cbn [combine app has_newer_fw_loop].
    rewrite (int_Return _ _ Ez), (int_Return _ _ Ez'). cbn [bind].
    replace (z >? z) with false by lia. replace (z <? z) with false by lia.
    now apply (IH pb zs).
Qed.

Lemma combine_app {A B : Type} (a a' : list A) (b b' : list B) :
  List.length a = List.length b ->
  combine (a ++ a') (b ++ b') = (combine a b ++ combine a' b')%list.
Proof.
  revert b; induction a as [|x a IH]; intros [|y b] H; try discriminate.
  - reflexivity.
  - cbn. f_equal. apply IH. now injection H.
Qed.

Lemma has_newer_fw_at (current_fw bundled_fw cw bw : string)
  (pc pb rc rb : list string) (ds : list Z) :
  split_on "." current_fw = (pc ++ cw :: rc)%list ->
  split_on "." bundled_fw = (pb ++ bw :: rb)%list ->
  version_digits pc = Some ds ->
  version_digits pb = Some ds ->
  List.length rc = List.length rb ->
  has_newer_fw current_fw bundled_fw
  = has_newer_fw_loop ((cw, bw) :: combine rc rb).
Proof.
  intros Hc Hb Hpc Hpb Hlen.
  assert (Hp : List.length pc = List.length pb).
  { now rewrite <- (version_digits_length _ _ Hpc), <- (version_digits_length _ _ Hpb). }
  rewrite has_newer_fw_same_length.
  - rewrite Hc, Hb, (combine_app _ _ _ _ Hp).
    now rewrite (has_newer_fw_loop_common pc pb ds).
  - rewrite Hc, Hb, !length_app. cbn [List.length]. lia.
Qed.

Lemma newer_lex_asym (cs bs : list Z) :
  newer_lex cs bs = true -> newer_lex bs cs = false.
Proof.
  revert bs; induction cs as [|c cs IH]; intros [|b bs]; cbn; try discriminate.
  destruct (b >? c) eqn:E1.
  - intros _. replace (c >? b) with false by lia. now replace (c <? b) with true by lia.
  - destruct (b <? c) eqn:E2; [discriminate|].
    replace (c >? b) with false by lia. replace (c <? b) with false by lia.
    apply IH.
Qed.

Lemma newer_lex_total (cs bs : list Z) :
  List.length cs = List.length bs -> cs <> bs ->
  newer_lex cs bs = true \/ newer_lex bs cs = true.
Proof.
  revert bs; induction cs as [|c cs IH]; intros [|b bs] Hlen Hne; try discriminate.
  - now elim Hne.
  - cbn. destruct (b >? c) eqn:E1; [now left|].
    destruct (b <? c) eqn:E2.
    + right. now replace (c >? b) with true by lia.
    + assert (b = c) by lia; subst b.
      replace (c >? c) with false by lia. replace (c <? c) with false by lia.
      apply IH; [now injection Hlen|]. intros ->. now elim Hne.
Qed.

Lemma newer_lex_trans (xs ys zs : list Z) :
  newer_lex xs ys = true -> newer_lex ys zs = true -> newer_lex xs zs = true.
Proof.
  revert ys zs; induction xs as [|x xs IH]; intros [|y ys] [|z zs]; cbn;
    try discriminate.
  destruct (y >? x) eqn:E1.
  - intros _. destruct (z >? y) eqn:E2.
    + intros _. now replace (z >? x) with true by lia.
    + destruct (z <? y) eqn:E3; [discriminate|]. intros _.
      now replace (z >? x) with true by lia.
  - destruct (y <? x) eqn:E2; [discriminate|]. assert (y = x) by lia; subst y.
    intros H1. destruct (z >? x); [reflexivity|].
    destruct (z <? x); [discriminate|]. now apply IH.
Qed.

End Order.

Lemma has_newer_fw_loop_self (words : list string) :
  has_newer_fw_loop (combine words words)
  = match version_digits words with
    | Some _ => Return false
    | None => Raise ValueError
    end.
Proof.
  induction words as [|w words IH]; [reflexivity|].
  cbn [combine has_newer_fw_loop version_digits]. unfold int.
  destruct (int_literal w) as [z|]; [|reflexivity]. cbn [bind].
  replace (z >? z) with false by lia. replace (z <? z) with false by lia.
  rewrite IH. now destruct (version_digits words).
Qed.

(** X1: on two versions with the same number of components the answers in
    the two directions are never both [True]; exactly one is [True] when the
    versions differ as lists of integers, and both are [False] when they are
    equal. *)
Theorem has_newer_fw_strict (fw1 fw2 : string) (ds1 ds2 : list Z) :
  version_of fw1 = Some ds1 ->
  version_of fw2 = Some ds2 ->
  List.length (split_on "." fw1) = List.length (split_on "." fw2) ->
  (has_newer_fw fw1 fw2 = Return true -> has_newer_fw fw2 fw1 = Return false) /\
  (ds1 <> ds2 ->
   has_newer_fw fw1 fw2 = Return true \/ has_newer_fw fw2 fw1 = Return true) /\
  (ds1 = ds2 ->
   has_newer_fw fw1 fw2 = Return false /\ has_newer_fw fw2 fw1 = Return false).
Proof.
  intros H1 H2 Hlen.
  rewrite (has_newer_fw_lex fw1 fw2 ds1 ds2 H1 H2 Hlen).
  rewrite (has_newer_fw_lex fw2 fw1 ds2 ds1 H2 H1 (eq_sym Hlen)).
  assert (Hl : List.length ds1 = List.length ds2).
  { now rewrite (version_digits_length _ _ H1), (version_digits_length _ _ H2). }
  split; [|split].
  - intros H. injection H as H. now rewrite (newer_lex_asym _ _ H).
  - intros Hne. destruct (newer_lex_total ds1 ds2 Hl Hne) as [-> | ->]; auto.
  - intros ->. now rewrite newer_lex_irrefl.
Qed.

Lemma has_newer_fw_strict_witness :
  has_newer_fw "5.12.1" "5.13.0" = Return true /\
  has_newer_fw "5.13.0" "5.12.1" = Return false.
Proof.
  destruct (has_newer_fw_strict "5.12.1" "5.13.0" [5; 12; 1] [5; 13; 0]
              eq_refl eq_refl eq_refl) as (Hasym & Htotal & _).
  destruct Htotal as [H | H]; [discriminate | | discriminate H].
  exact (conj H (Hasym H)).
Defined.

(** X2: being newer is transitive on versions with the same number of
    components. *)
Theorem has_newer_fw_transitive (fw1 fw2 fw3 : string) (ds1 ds2 ds3 : list Z) :
  version_of fw1 = Some ds1 ->
  version_of fw2 = Some ds2 ->
  version_of fw3 = Some ds3 ->
  has_newer_fw fw1 fw2 = Return true ->
  has_newer_fw fw2 fw3 = Return true ->
  has_newer_fw fw1 fw3 = Return true.
Proof.
  intros H1 H2 H3 H12 H23.
  assert (L12 : List.length (split_on "." fw1) = List.length (split_on "." fw2)).
  { unfold has_newer_fw in H12.
    destruct (Nat.eqb_spec (List.length (split_on "." fw1))
                           (List.length (split_on "." fw2))); [assumption|discriminate]. }
  assert (L23 : List.length (split_on "." fw2) = List.length (split_on "." fw3)).
  { unfold has_newer_fw in H23.
    destruct (Nat.eqb_spec (List.length (split_on "." fw2))
                           (List.length (split_on "." fw3))); [assumption|discriminate]. }
  rewrite (has_newer_fw_lex _ _ _ _ H1 H2 L12) in H12.
  rewrite (has_newer_fw_lex _ _ _ _ H2 H3 L23) in H23.
  rewrite (has_newer_fw_lex _ _ _ _ H1 H3 (eq_trans L12 L23)).
  injection H12 as H12. injection H23 as H23.
  now rewrite (newer_lex_trans _ _ _ H12 H23).
Qed.

Lemma has_newer_fw_transitive_witness :
  has_newer_fw "5.9.14" "5.13.0" = Return true.
Proof.
  apply (has_newer_fw_transitive "5.9.14" "5.12.1" "5.13.0"
           [5; 9; 14] [5; 12; 1] [5; 13; 0]); reflexivity.
Defined.

(** X3: the answer is settled at the first pair of components that differ
    as integers; the components after it are not converted, so they need not
    be numbers. *)
Theorem has_newer_fw_decided_at_first_difference
  (current_fw bundled_fw cw bw : string) (pc pb rc rb : list string)
  (ds : list Z) (c b : Z) :
  split_on "." current_fw = (pc ++ cw :: rc)%list ->
  split_on "." bundled_fw = (pb ++ bw :: rb)%list ->
  version_digits pc = Some ds ->
  version_digits pb = Some ds ->
  List.length rc = List.length rb ->
  int_literal cw = Some c ->
  int_literal bw = Some b ->
  c <> b ->
  has_newer_fw current_fw bundled_fw = Return (b >? c).
Proof.
  intros Hc Hb Hpc Hpb Hlen Hcw Hbw Hne.
  rewrite (has_newer_fw_at _ _ _ _ _ _ _ _ _ Hc Hb Hpc Hpb Hlen).
  cbn [has_newer_fw_loop]. rewrite (int_Return _ _ Hcw), (int_Return _ _ Hbw).
  cbn [bind]. destruct (b >? c) eqn:E; [reflexivity|].
  now replace (b <? c) with true by lia.
Qed.

Lemma has_newer_fw_decided_at_first_difference_witness :
  has_newer_fw "5.12.beta" "5.13.rc1" = Return true.
Proof.
  apply (has_newer_fw_decided_at_first_difference
           "5.12.beta" "5.13.rc1" "12" "13" ["5"] ["5"] ["beta"] ["rc1"] [5] 12 13);
    first [reflexivity | discriminate].
Defined.

(** X4: when the components agree as integers up to a pair of which one is
    not accepted by [int], the call raises [ValueError]. *)
Theorem has_newer_fw_value_error
  (current_fw bundled_fw cw bw : string) (pc pb rc rb : list string) (ds : list Z) :
  split_on "." current_fw = (pc ++ cw :: rc)%list ->
  split_on "." bundled_fw = (pb ++ bw :: rb)%list ->
  version_digits pc = Some ds ->
  version_digits pb = Some ds ->
  List.length rc = List.length rb ->
  int_literal cw = None \/ int_literal bw = None ->
  has_newer_fw current_fw bundled_fw = Raise ValueError.
Proof.
  intros Hc Hb Hpc Hpb Hlen Hbad.
  rewrite (has_newer_fw_at _ _ _ _ _ _ _ _ _ Hc Hb Hpc Hpb Hlen).
  cbn [has_newer_fw_loop]. unfold int.
  destruct (int_literal bw) as [b|]; [|reflexivity].
  destruct Hbad as [-> | H]; [reflexivity|discriminate].
Qed.

Lemma has_newer_fw_value_error_witness :
  has_newer_fw "5.12.x" "5.12.0" = Raise ValueError.
Proof.
  apply (has_newer_fw_value_error "5.12.x" "5.12.0" "x" "0"
           ["5"; "12"] ["5"; "12"] [] [] [5; 12]);
    first [reflexivity | now left].
Defined.

(** X5: comparing any string with itself returns [False] when all its
    components are accepted by [int] and raises [ValueError] otherwise; in
    particular the empty string raises. *)
Theorem has_newer_fw_self (fw : string) :
  has_newer_fw fw fw
  = match version_of fw with
    | Some _ => Return false
    | None => Raise ValueError
    end.
Proof.
  rewrite has_newer_fw_same_length by reflexivity. apply has_newer_fw_loop_self.
Qed.

(** X6: [has_newer_fw] leaves through [sys.exit] only with code 1, and
    exactly when the two strings hold different numbers of dots. *)
Theorem has_newer_fw_exit_iff (current_fw bundled_fw : string) (c : Z) :
  has_newer_fw current_fw bundled_fw = SysExit c <->
  c = 1 /\ count_char "." current_fw <> count_char "." bundled_fw.
Proof.
  unfold has_newer_fw. rewrite !split_on_length.
  destruct (Nat.eqb_spec (S (count_char "." current_fw))
                         (S (count_char "." bundled_fw))) as [E|E]; cbn [negb].
  - split.
    + intros H. now apply has_newer_fw_loop_no_exit in H.
    + intros [_ H]. elim H. now injection E.
  - split.
    + intros H. injection H as <-. split; [reflexivity|]. intros H. elim E. now rewrite H.
    + now intros [-> _].
Qed.

(** X7: the result depends on the integers the components denote, not on
    how they are written (leading zeros, a plus sign, surrounding blanks). *)
Theorem has_newer_fw_by_value (fw1 fw1' fw2 fw2' : string) (ds1 ds2 : list Z) :
  version_of fw1 = Some ds1 -> version_of fw1' = Some ds1 ->
  version_of fw2 = Some ds2 -> version_of fw2' = Some ds2 ->
  List.length ds1 = List.length ds2 ->
  has_newer_fw fw1 fw2 = has_newer_fw fw1' fw2'.
Proof.
  intros H1 H1' H2 H2' Hlen.
  rewrite (has_newer_fw_lex fw1 fw2 ds1 ds2 H1 H2).
  - rewrite (has_newer_fw_lex fw1' fw2' ds1 ds2 H1' H2'); [reflexivity|].
    now rewrite <- (version_digits_length _ _ H1'), <- (version_digits_length _ _ H2').
  - now rewrite <- (version_digits_length _ _ H1), <- (version_digits_length _ _ H2).
Qed.

Lemma has_newer_fw_by_value_witness :
  has_newer_fw "5.012.1" " 5.+13.0_0" = has_newer_fw "5.12.1" "5.13.0".
Proof.
  apply (has_newer_fw_by_value "5.012.1" "5.12.1" " 5.+13.0_0" "5.13.0"
           [5; 12; 1] [5; 13; 0]); reflexivity.
Defined.

(** * More on [get_bundled_fw_version] *)

Section Reader.

Variable product_line : string.
Let prefix := slice product_line 0 2.

Lemma not_enough_tokens (line : string) :
  enough_tokens prefix line = false ->
  split_ws line = ["#define"] \/
  exists w1, split_ws line = ["#define"; w1] /\ str_in prefix w1 = true.
Proof.
  unfold enough_tokens. destruct (split_ws line) as [|w0 ws]; [discriminate|].
  destruct (String.eqb_spec w0 "#define") as [->|_]; [|discriminate].
  destruct ws as [|w1 [|w2 more]]; [now left| |discriminate].
  intros H. apply negb_false_iff in H. right. now exists w1.
Qed.

(** The loop returns the lookup when every line it reads has the tokens it
    indexes, and raises otherwise. *)
Lemma loop_cases (lines : list string) :
  get_bundled_fw_version_loop lines product_line
  = if forallb (enough_tokens prefix) (up_to_first (qualifies prefix) lines)
    then Return (manifest_lookup lines prefix)
    else Raise IndexError.
Proof.
  induction lines as [|line rest IH]; [reflexivity|].
  cbn [up_to_first]. destruct (qualifies prefix line) eqn:Hq.
  - cbn [forallb]. rewrite andb_true_r.
    destruct (enough_tokens prefix line) eqn:He.
    + apply loop_lookup. cbn [up_to_first]. fold prefix. rewrite Hq.
      constructor; [exact He|constructor].
    + destruct (not_enough_tokens line He) as [Hw | (w1 & Hw & Hin)].
      * now apply loop_bare_define.
      * now apply loop_no_version with (w1 := w1).
  - cbn [forallb]. destruct (enough_tokens prefix line) eqn:He; cbn [andb].
    + rewrite (loop_skip product_line line rest He Hq), IH.
      unfold manifest_lookup. cbn [List.find]. now rewrite Hq.
    + destruct (not_enough_tokens line He) as [Hw | (w1 & Hw & Hin)].
      * now apply loop_bare_define.
      * unfold qualifies in Hq. rewrite Hw in Hq. cbn in Hq.
        fold prefix in Hq. rewrite Hin in Hq. discriminate.
Qed.

End Reader.

Lemma universal_newlines_no_cr (s : string) :
  count_char CR s = 0%nat -> universal_newlines s = s.
Proof.
  induction s as [|c s IH]; [reflexivity|]. cbn [count_char universal_newlines].
  destruct (Ascii.eqb c CR); [discriminate|]. intros H. now rewrite IH.
Qed.

Lemma universal_newlines_with_crlf (s : string) :
  count_char CR s = 0%nat -> universal_newlines (with_crlf s) = s.
Proof.
  induction s as [|c s IH]; [reflexivity|]. cbn [count_char with_crlf].
  destruct (Ascii.eqb_spec c CR) as [->|Hcr]; [discriminate|]. intros H.
  destruct (Ascii.eqb_spec c LF) as [->|Hlf].
  - cbn [universal_newlines]. change (Ascii.eqb CR CR) with true.
    change (Ascii.eqb LF LF) with true. cbn iota. now rewrite IH.
  - cbn [universal_newlines]. apply Ascii.eqb_neq in Hcr. rewrite Hcr.
    now rewrite IH.
Qed.

Lemma with_cr_head (s : string) :
  match with_cr s with
  | String c _ => Ascii.eqb c LF = false
  | EmptyString => True
  end.
Proof.
  destruct s as [|c s]; [exact I|]. cbn [with_cr].
  destruct (Ascii.eqb_spec c LF) as [->|H]; [reflexivity|].
  now apply Ascii.eqb_neq.
Qed.

Lemma universal_newlines_with_cr (s : string) :
  count_char CR s = 0%nat -> universal_newlines (with_cr s) = s.
Proof.
  induction s as [|c s IH]; [reflexivity|]. cbn [count_char with_cr].
  destruct (Ascii.eqb_spec c CR) as [->|Hcr]; [discriminate|]. intros H.
  specialize (IH H).
  destruct (Ascii.eqb_spec c LF) as [->|Hlf].
  - cbn [universal_newlines]. change (Ascii.eqb CR CR) with true. cbn iota.
    pose proof (with_cr_head s) as Hhead.
    destruct (with_cr s) as [|c' s'] eqn:E.
    + destruct s; [reflexivity|]. cbn in E. destruct (Ascii.eqb a LF); discriminate.
    + rewrite Hhead, IH. reflexivity.
  - cbn [universal_newlines]. apply Ascii.eqb_neq in Hcr. rewrite Hcr.
    now rewrite IH.
Qed.

Lemma str_in_empty (w : string) : str_in "" w = true.
Proof. destruct w; reflexivity. Qed.

Lemma slice_short (w : string) :
  (String.length w <= 2)%nat -> slice w 1 (-1) = EmptyString.
Proof.
  destruct w as [|a [|b [|c w]]]; cbn [String.length]; intros H;
    [reflexivity..|lia].
Qed.

(** X8: [get_bundled_fw_version] either returns or raises [IndexError];
    it raises exactly when one of the lines read up to and including the
    first qualifying one is a [#define] line without the token the reader
    indexes, and it never leaves through [sys.exit]. *)
Theorem get_bundled_fw_version_raises_iff (fw_versions product_line : string) :
  (get_bundled_fw_version fw_versions product_line = Raise IndexError <->
   forallb (enough_tokens (slice product_line 0 2))
           (up_to_first (qualifies (slice product_line 0 2))
                        (manifest_lines fw_versions)) = false) /\
  (forall e, get_bundled_fw_version fw_versions product_line = Raise e ->
             e = IndexError) /\
  (forall c, get_bundled_fw_version fw_versions product_line <> SysExit c).
Proof.
  unfold get_bundled_fw_version. fold (manifest_lines fw_versions).
  rewrite loop_cases.
  destruct (forallb _ _); (split; [split|split]); try discriminate; try reflexivity.
  intros e H. now injection H.
Qed.

(** X9: the bundled version read depends on the product line through its
    first two characters only. *)
Theorem get_bundled_fw_version_two_characters (fw_versions pl1 pl2 : string) :
  slice pl1 0 2 = slice pl2 0 2 ->
  get_bundled_fw_version fw_versions pl1 = get_bundled_fw_version fw_versions pl2.
Proof.
  intros H. unfold get_bundled_fw_version. now rewrite !loop_cases, H.
Qed.

Lemma get_bundled_fw_version_two_characters_witness :
  get_bundled_fw_version sample_manifest "D400" = get_bundled_fw_version sample_manifest "D455".
Proof.
  apply (get_bundled_fw_version_two_characters sample_manifest "D400" "D455").
  reflexivity.
Defined.

(** X10: a manifest written with CR LF line ends, or with CR alone, is read
    like the same text written with LF. *)
Theorem get_bundled_fw_version_line_ends (fw_versions product_line : string) :
  count_char CR fw_versions = 0%nat ->
  get_bundled_fw_version (with_crlf fw_versions) product_line
  = get_bundled_fw_version fw_versions product_line /\
  get_bundled_fw_version (with_cr fw_versions) product_line
  = get_bundled_fw_version fw_versions product_line.
Proof.
  intros H. unfold get_bundled_fw_version.
  now rewrite (universal_newlines_with_crlf _ H), (universal_newlines_with_cr _ H),
    (universal_newlines_no_cr _ H).
Qed.

Lemma get_bundled_fw_version_line_ends_witness :
  get_bundled_fw_version (with_crlf lf_manifest) "D400" = Return (Some "5.13.0") /\
  get_bundled_fw_version (with_cr lf_manifest) "D400" = Return (Some "5.13.0").
Proof.
  exact (get_bundled_fw_version_line_ends lf_manifest "D400" eq_refl).
Defined.

(** X11: with an empty product line every macro name contains the prefix:
    the result is taken from the first [#define] line, whatever it names. *)
Theorem get_bundled_fw_version_empty_product_line
  (fw_versions line w1 w2 : string) (pre rest more : list string) :
  manifest_lines fw_versions = (pre ++ line :: rest)%list ->
  Forall (fun l => hd_error (split_ws l) <> Some "#define") pre ->
  split_ws line = "#define" :: w1 :: w2 :: more ->
  get_bundled_fw_version fw_versions "" = Return (Some (slice w2 1 (-1))).
Proof.
  intros Hlines Hpre Hw. unfold get_bundled_fw_version.
  fold (manifest_lines fw_versions). rewrite Hlines. clear Hlines.
  induction Hpre as [|l pre Hl _ IH].
  - apply loop_hit with (w1 := w1) (more := more); [exact Hw|apply str_in_empty].
  - cbn [app]. now rewrite loop_skip_other.
Qed.

Lemma get_bundled_fw_version_empty_product_line_witness :
  get_bundled_fw_version lf_manifest "" = Return (Some "1.5.8.1").
Proof.
  apply (get_bundled_fw_version_empty_product_line lf_manifest
           ("#define L5XX_FW_VERSION " ++ quoted "1.5.8.1" ++ String LF "")
           "L5XX_FW_VERSION" (quoted "1.5.8.1")
           (firstn 1 (manifest_lines lf_manifest))
           (skipn 2 (manifest_lines lf_manifest)) []).
  - reflexivity.
  - repeat constructor; discriminate.
  - reflexivity.
Defined.

(** * Masks of plain names *)

Section Masks.

Lemma plain_not_special (c : ascii) :
  plain c = true ->
  Ascii.eqb c "(" = false /\ Ascii.eqb c ")" = false /\ Ascii.eqb c "|" = false /\
  Ascii.eqb c "^" = false /\ Ascii.eqb c "$" = false /\ Re.not_covered c = false.
Proof.
  unfold plain. cbn [existsb]. intros H.
  apply andb_true_iff in H as [H1 H2].
  apply negb_true_iff in H1, H2.
  repeat (apply orb_false_iff in H2 as [? H2]). auto 10.
Qed.

Lemma parse_plain (name tail : string) (cur : Re.regex) (alts : option Re.regex)
  (stack : list (Re.regex * option Re.regex)) :
  plain_name name = true ->
  Re.parse (name ++ tail) cur alts stack
  = Re.parse tail (seq_atoms cur name) alts stack.
Proof.
  revert cur; induction name as [|c name IH]; intros cur H; [reflexivity|].
  cbn [plain_name] in H. apply andb_true_iff in H as [Hc H].
  destruct (plain_not_special c Hc) as (H1 & H2 & H3 & H4 & H5 & _).
  change (String c name ++ tail) with (String c (name ++ tail)).
  cbn [Re.parse seq_atoms]. rewrite H1, H2, H3, H4, H5.
  unfold atom. destruct (Ascii.eqb c "."); now apply IH.
Qed.

Lemma covered_append (a b : string) :
  Re.covered (a ++ b) = Re.covered a && Re.covered b.
Proof.
  induction a as [|c a IH]; [reflexivity|].
  change (String c a ++ b) with (String c (a ++ b)).
  cbn [Re.covered]. now rewrite IH, andb_assoc.
Qed.

Lemma covered_plain (name : string) : plain_name name = true -> Re.covered name = true.
Proof.
  induction name as [|c name IH]; [reflexivity|]. cbn [plain_name Re.covered].
  intros H. apply andb_true_iff in H as [Hc H].
  destruct (plain_not_special c Hc) as (_ & _ & _ & _ & _ & ->). now apply IH.
Qed.

Lemma plain_name_append (a b : string) :
  plain_name (a ++ b) = plain_name a && plain_name b.
Proof.
  induction a as [|c a IH]; [reflexivity|].
  change (String c a ++ b) with (String c (a ++ b)).
  cbn [plain_name]. now rewrite IH, andb_assoc.
Qed.

Lemma compile_anchored (name : string) :
  plain_name name = true ->
  Re.compile ("(^|/)" ++ name ++ "$") = Re.Compiled (name_pattern name).
Proof.
  intros H. unfold Re.compile.
  rewrite covered_append, covered_append, (covered_plain _ H).
  change (Re.covered "(^|/)" && (true && Re.covered "$")) with true. cbn iota.
  change (Re.parse ("(^|/)" ++ name ++ "$") Re.Eps None [])
    with (Re.parse (name ++ "$") boundary None []).
  now rewrite (parse_plain name "$" boundary None [] H).
Qed.

Lemma matches_seq_atoms (name : string) (r : Re.regex) (b : bool) (s : string)
  (k : bool -> string -> bool) :
  Re.matches (seq_atoms r name) b s k
  = Re.matches r b s (fun b' t => match_atoms name b' t k).
Proof.
  revert r; induction name as [|c name IH]; intros r; [reflexivity|].
  cbn [seq_atoms]. now rewrite IH.
Qed.

Lemma match_atoms_spec (name : string) (b : bool) (t : string)
  (k : bool -> string -> bool) :
  match_atoms name b t k = true <->
  exists body rest,
    t = body ++ rest /\ reads_as name body = true /\
    k (match name with EmptyString => b | String _ _ => false end) rest = true.
Proof.
  revert b t; induction name as [|c name IH]; intros b t; cbn [match_atoms].
  - split.
    + intros H. now exists EmptyString, t.
    + intros (body & rest & -> & Hr & Hk). destruct body; [exact Hk|discriminate].
  - assert (Hstep : forall t',
               match_atoms name false t' k = true <->
               exists body rest,
                 t' = body ++ rest /\ reads_as name body = true /\ k false rest = true).
    { intros t'. rewrite IH. now destruct name. }
    unfold atom. destruct (Ascii.eqb c ".") eqn:Edot; cbn [Re.matches].
    + destruct t as [|d t'].
      * split; [discriminate|]. intros (body & rest & Ht & Hr & _).
        destruct body; [discriminate Hr|discriminate Ht].
      * split.
        -- intros H. apply andb_true_iff in H as [Hd H].
           apply Hstep in H as (body & rest & -> & Hr & Hk).
           exists (String d body), rest. cbn [reads_as]. rewrite Edot, Hd, Hr. auto.
        -- intros (body & rest & Ht & Hr & Hk). destruct body as [|d' body];
             [discriminate Hr|]. injection Ht as <- ->.
           cbn [reads_as] in Hr. rewrite Edot in Hr.
           apply andb_true_iff in Hr as [Hd Hr]. rewrite Hd. cbn [andb].
           apply Hstep. now exists body, rest.
    + destruct t as [|d t'].
      * split; [discriminate|]. intros (body & rest & Ht & Hr & _).
        destruct body; [discriminate Hr|discriminate Ht].
      * split.
        -- intros H. apply andb_true_iff in H as [Hd H].
           apply Hstep in H as (body & rest & -> & Hr & Hk).
           exists (String d body), rest. cbn [reads_as]. rewrite Edot, Hd, Hr. auto.
        -- intros (body & rest & Ht & Hr & Hk). destruct body as [|d' body];
             [discriminate Hr|]. injection Ht as <- ->.
           cbn [reads_as] in Hr. rewrite Edot in Hr.
           apply andb_true_iff in Hr as [Hd Hr]. rewrite Hd. cbn [andb].
           apply Hstep. now exists body, rest.
Qed.

Lemma eol_spec (b : bool) (t : string) :
  Re.matches Re.Eol b t (fun _ _ => true) = true <->
  t = EmptyString \/ t = String LF EmptyString.
Proof.
  cbn [Re.matches]. destruct t as [|d [|e t]].
  - split; auto.
  - rewrite andb_true_r. split.
    + intros H. apply Ascii.eqb_eq in H. subst. now right.
    + intros [H|H]; [discriminate|]. injection H as ->. reflexivity.
  - split; [discriminate|]. intros [H|H]; discriminate.
Qed.

(** A match of the compiled mask that begins where [s] begins. *)
Lemma matches_name_pattern (name : string) (b : bool) (s : string) :
  Re.matches (name_pattern name) b s (fun _ _ => true) = true <->
  exists lead body nl,
    s = lead ++ body ++ nl /\
    ((lead = EmptyString /\ b = true) \/ lead = "/") /\
    reads_as name body = true /\
    (nl = EmptyString \/ nl = String LF EmptyString).
Proof.
  unfold name_pattern. cbn [Re.matches]. rewrite matches_seq_atoms.
  unfold boundary. cbn [Re.matches].
  rewrite orb_true_iff, andb_true_iff. split.
  - intros [[Hb H] | H].
    + apply match_atoms_spec in H as (body & nl & -> & Hr & Hk).
      apply (proj1 (eol_spec false nl)) in Hk. exists EmptyString, body, nl. auto.
    + destruct s as [|d s']; [discriminate|].
      apply andb_true_iff in H as [Hd H]. apply Ascii.eqb_eq in Hd. subst d.
      apply match_atoms_spec in H as (body & nl & -> & Hr & Hk).
      apply (proj1 (eol_spec false nl)) in Hk. exists "/", body, nl. auto.
  - intros (lead & body & nl & -> & [[-> ->] | ->] & Hr & Hnl).
    + left. split; [reflexivity|]. apply match_atoms_spec.
      exists body, nl. split; [reflexivity|]. split; [exact Hr|].
      exact (proj2 (eol_spec false nl) Hnl).
    + right. change ("/" ++ body ++ nl) with (String "/" (body ++ nl)).
      change (Ascii.eqb "/" "/") with true. cbn [andb].
      apply match_atoms_spec. exists body, nl. split; [reflexivity|].
      split; [exact Hr|]. exact (proj2 (eol_spec false nl) Hnl).
Qed.

Lemma append_assoc (a b c : string) : (a ++ b) ++ c = a ++ (b ++ c).
Proof. induction a as [|x a IH]; [reflexivity|]. cbn. now rewrite IH. Qed.

Lemma search_from_name_pattern (name : string) (b : bool) (s : string) :
  Re.search_from (name_pattern name) b s = true <->
  exists pre body nl,
    s = pre ++ body ++ nl /\
    ((pre = EmptyString /\ b = true) \/ exists pre', pre = pre' ++ "/") /\
    reads_as name body = true /\
    (nl = EmptyString \/ nl = String LF EmptyString).
Proof.
  split.
  - revert b; induction s as [|c s IH]; intros b H; cbn [Re.search_from] in H;
      apply orb_true_iff in H as [H|H].
    + apply matches_name_pattern in H as (lead & body & nl & Hs & Hlead & Hr & Hnl).
      exists lead, body, nl. repeat split; try assumption.
      destruct Hlead as [Hl | ->]; [now left|right; now exists EmptyString].
    + discriminate.
    + apply matches_name_pattern in H as (lead & body & nl & Hs & Hlead & Hr & Hnl).
      exists lead, body, nl. repeat split; try assumption.
      destruct Hlead as [Hl | ->]; [now left|right; now exists EmptyString].
    + apply IH in H as (pre & body & nl & -> & Hpre & Hr & Hnl).
      destruct Hpre as [[_ Hf] | (pre' & ->)]; [discriminate|].
      exists (String c pre' ++ "/"), body, nl. repeat split; try assumption.
      right. now exists (String c pre').
  - intros (pre & body & nl & -> & Hpre & Hr & Hnl).
    destruct Hpre as [[-> ->] | (pre' & ->)].
    + assert (H : Re.matches (name_pattern name) true ("" ++ body ++ nl)
                    (fun _ _ => true) = true).
      { apply matches_name_pattern. exists EmptyString, body, nl. auto. }
      destruct ("" ++ body ++ nl); cbn [Re.search_from]; now rewrite H.
    + revert b; induction pre' as [|c pre' IH]; intros b.
      * assert (H : Re.matches (name_pattern name) b (("" ++ "/") ++ body ++ nl)
                      (fun _ _ => true) = true).
        { apply matches_name_pattern. exists "/", body, nl. auto. }
        change (("" ++ "/") ++ body ++ nl) with (String "/" (body ++ nl)) in *.
        cbn [Re.search_from]. now rewrite H.
      * change ((String c pre' ++ "/") ++ body ++ nl)
          with (String c ((pre' ++ "/") ++ body ++ nl)).
        cbn [Re.search_from]. rewrite IH. apply orb_true_r.
Qed.

Lemma search_name_pattern (name path : string) :
  Re.search (name_pattern name) path = true <-> passes name path.
Proof.
  unfold Re.search, passes. rewrite search_from_name_pattern.
  split; intros (pre & body & nl & Hs & Hpre & Hr & Hnl);
    exists pre, body, nl; repeat split; try assumption.
  - destruct Hpre as [[-> _] | H]; auto.
  - destruct Hpre as [-> | H]; auto.
Qed.

Lemma find_anchored (leafs : list string) (name : string) :
  plain_name name = true ->
  find leafs ("(^|/)" ++ name ++ "$")
  = Return (filter (fun leaf => Re.search (name_pattern name) leaf) leafs).
Proof. intros H. unfold find. now rewrite (compile_anchored name H). Qed.

Lemma reads_as_refl (name : string) : reads_as name name = true.
Proof.
  induction name as [|c name IH]; [reflexivity|]. cbn [reads_as]. rewrite IH.
  destruct (Ascii.eqb_spec c ".") as [->|_]; [reflexivity|].
  now rewrite Ascii.eqb_refl.
Qed.

End Masks.

Lemma reads_as_chr (c : ascii) (name body : string) :
  c <> "."%char ->
  reads_as (String c name) body = true <->
  exists body', body = String c body' /\ reads_as name body' = true.
Proof.
  intros Hc. apply Ascii.eqb_neq in Hc. split.
  - destruct body as [|d body]; [discriminate|]. cbn [reads_as]. rewrite Hc.
    intros H. apply andb_true_iff in H as [Hd H]. apply Ascii.eqb_eq in Hd.
    subst d. now exists body.
  - intros (body' & -> & H). cbn [reads_as]. now rewrite Hc, Ascii.eqb_refl.
Qed.

Lemma reads_as_dot (name body : string) :
  reads_as (String "." name) body = true <->
  exists d body', body = String d body' /\ d <> LF /\ reads_as name body' = true.
Proof.
  split.
  - destruct body as [|d body]; [discriminate|]. cbn [reads_as].
    change (Ascii.eqb "." ".") with true. cbn iota.
    intros H. apply andb_true_iff in H as [Hd H]. apply negb_true_iff in Hd.
    apply Ascii.eqb_neq in Hd. now exists d, body.
  - intros (d & body' & -> & Hd & H). cbn [reads_as].
    change (Ascii.eqb "." ".") with true. cbn iota.
    apply Ascii.eqb_neq in Hd. now rewrite Hd, H.
Qed.

Lemma reads_as_end (body : string) :
  reads_as EmptyString body = true <-> body = EmptyString.
Proof. destruct body; split; intros H; first [reflexivity | discriminate]. Qed.

Ltac read_chr H :=
  match type of H with
  | reads_as (String ?c ?n) ?body = true =>
      let Hc := fresh in
      assert (Hc : c <> "."%char) by discriminate;
      apply (proj1 (reads_as_chr c n body Hc)) in H as (? & -> & H); clear Hc
  end.

Lemma reads_as_updater (body : string) :
  reads_as "rs-fw-update.exe" body = true <->
  exists c, body = "rs-fw-update" ++ String c "exe" /\ c <> LF.
Proof.
  split.
  - intros H.
    do 12 read_chr H.
    apply reads_as_dot in H as (c & ? & -> & Hc & H).
    do 3 read_chr H.
    apply reads_as_end in H as ->. now exists c.
  - intros (c & -> & Hc). apply Ascii.eqb_neq in Hc.
    cbn [append reads_as]. rewrite Hc. reflexivity.
Qed.

(** X12: [find] with the updater's mask yields, in the order given, exactly
    the paths made of nothing or a text ending in [/], then [rs-fw-update],
    one character other than LF, [exe], and then nothing or one LF. *)
Theorem find_updater_mask_exactly (leafs : list string) :
  exists files,
    find leafs updater_mask = Return files /\
    forall path,
      In path files <->
      In path leafs /\
      exists pre c nl,
        path = pre ++ "rs-fw-update" ++ String c ("exe" ++ nl) /\
        (pre = EmptyString \/ exists pre', pre = pre' ++ "/") /\
        c <> LF /\
        (nl = EmptyString \/ nl = String LF EmptyString).
Proof.
  exists (filter (fun leaf => Re.search (name_pattern "rs-fw-update.exe") leaf) leafs).
  split; [exact (find_anchored leafs "rs-fw-update.exe" eq_refl)|].
  intros path. rewrite filter_In, search_name_pattern. unfold passes.
  split; intros [Hin H]; (split; [exact Hin|]).
  - destruct H as (pre & body & nl & -> & Hpre & Hr & Hnl).
    apply reads_as_updater in Hr as (c & -> & Hc).
    exists pre, c, nl. repeat split; assumption.
  - destruct H as (pre & c & nl & -> & Hpre & Hc & Hnl).
    exists pre, ("rs-fw-update" ++ String c "exe"), nl.
    repeat split; try assumption. apply reads_as_updater. now exists c.
Qed.

Lemma plain_image_name (product_line bundled_fw_version : string) :
  plain_name (slice product_line 0 2) = true ->
  plain_name bundled_fw_version = true ->
  plain_name (image_name product_line bundled_fw_version) = true.
Proof.
  intros H1 H2. unfold image_name.
  now rewrite !plain_name_append, H1, H2.
Qed.

(** X13: when the first two characters of the product line and the bundled
    version contain none of the characters that a regular expression reads
    specially, other than [.], [find] with the image mask yields exactly the
    paths in which, after the start or a [/], comes a text that reads as the
    image name, a [.] of the name standing for any character but LF, followed
    by the end or by one LF; a file with the image name itself, in the root
    or in any directory, is among them. *)
Theorem find_image_mask_exactly (leafs : list string)
  (product_line bundled_fw_version : string) :
  plain_name (slice product_line 0 2) = true ->
  plain_name bundled_fw_version = true ->
  exists files,
    find leafs (image_mask product_line bundled_fw_version) = Return files /\
    (forall path,
        In path files <->
        In path leafs /\ passes (image_name product_line bundled_fw_version) path) /\
    (In (image_name product_line bundled_fw_version) leafs ->
     In (image_name product_line bundled_fw_version) files) /\
    (forall dir,
        In (dir ++ "/" ++ image_name product_line bundled_fw_version) leafs ->
        In (dir ++ "/" ++ image_name product_line bundled_fw_version) files).
Proof.
  intros H1 H2. pose proof (plain_image_name _ _ H1 H2) as Hplain.
  set (name := image_name product_line bundled_fw_version) in *.
  exists (filter (fun leaf => Re.search (name_pattern name) leaf) leafs).
  assert (Hiff : forall path,
             In path (filter (fun leaf => Re.search (name_pattern name) leaf) leafs) <->
             In path leafs /\ passes name path).
  { intros path. now rewrite filter_In, search_name_pattern. }
  split; [exact (find_anchored leafs name Hplain)|]. split; [exact Hiff|]. split.
  - intros Hin. apply Hiff. split; [exact Hin|].
    exists EmptyString, name, EmptyString. repeat split.
    + cbn [append]. clear. induction name as [|c n IH]; [reflexivity|].
      cbn [append]. now rewrite <- IH.
    + now left.
    + apply reads_as_refl.
    + now left.
  - intros dir Hin. apply Hiff. split; [exact Hin|].
    exists (dir ++ "/"), name, EmptyString. repeat split.
    + rewrite append_assoc. f_equal. cbn [append]. f_equal. clear.
      induction name as [|c n IH]; [reflexivity|]. cbn [append]. now rewrite <- IH.
    + right. now exists dir.
    + apply reads_as_refl.
    + now left.
Qed.

Lemma find_image_mask_exactly_witness :
  exists files,
    find sample_tree (image_mask "D400" "5.13.0") = Return files /\
    In "common/fw/D4XX_FW_Image-5.13.0.bin" files.
Proof.
  destruct (find_image_mask_exactly sample_tree "D400" "5.13.0" eq_refl eq_refl)
    as (files & Hfind & _ & _ & Hdir).
  exists files. split; [exact Hfind|].
  apply (Hdir "common/fw"). cbn. tauto.
Defined.

(** * More on the script *)

Section Outcomes.

Lemma has_newer_fw_loop_raises (digits : list (string * string)) (e : exn) :
  has_newer_fw_loop digits = Raise e -> e = ValueError.
Proof.
  induction digits as [|[curr bundled] rest IH]; [discriminate|].
  cbn [has_newer_fw_loop]. unfold int.
  destruct (int_literal bundled) as [b|]; [|intros H; now injection H].
  destruct (int_literal curr) as [z|]; [|intros H; now injection H].
  cbn [bind]. destruct (b >? z); [discriminate|].
  destruct (b <? z); [discriminate|exact IH].
Qed.

Lemma has_newer_fw_outcomes (current_fw bundled_fw : string) :
  (forall c, has_newer_fw current_fw bundled_fw = SysExit c -> c = 1) /\
  (forall e, has_newer_fw current_fw bundled_fw = Raise e -> e = ValueError) /\
  has_newer_fw current_fw bundled_fw <> OutsideModel.
Proof.
  unfold has_newer_fw. destruct (negb _).
  - repeat split; try discriminate. intros c H. now injection H.
  - repeat split.
    + intros c H. now apply has_newer_fw_loop_no_exit in H.
    + apply has_newer_fw_loop_raises.
    + generalize (combine (split_on "." current_fw) (split_on "." bundled_fw)).
      intros digits. induction digits as [|[curr bundled] rest IH]; [discriminate|].
      cbn [has_newer_fw_loop]. unfold int.
      destruct (int_literal bundled) as [b|]; [|discriminate].
      destruct (int_literal curr) as [z|]; [|discriminate].
      cbn [bind]. destruct (b >? z); [discriminate|].
      destruct (b <? z); [discriminate|exact IH].
Qed.

Lemma get_bundled_fw_version_outcomes (fw_versions product_line : string) :
  (exists v, get_bundled_fw_version fw_versions product_line = Return v) \/
  get_bundled_fw_version fw_versions product_line = Raise IndexError.
Proof.
  unfold get_bundled_fw_version. rewrite loop_cases.
  destruct (forallb _ _); [left; eauto|now right].
Qed.

Lemma find_outcomes (leafs : list string) (mask : string) :
  (exists files, find leafs mask = Return files) \/
  (find leafs mask = Raise ReError /\ Re.compile mask = Re.CompileError) \/
  find leafs mask = OutsideModel.
Proof.
  unfold find. destruct (Re.compile mask); eauto.
Qed.

Variable w : World.

Let ups := filter (fun leaf => Re.search updater_pattern leaf) (filesin w).

Lemma script_ending : ending w (script w).
Proof.
  destruct (truthy (keep_joined w ups)) eqn:Hups;
    [|rewrite script_before_device by (now left); constructor].
  destruct (fw_versions_file w) as [fw|] eqn:Hfw;
    [|unfold script; rewrite Hfw; constructor].
  destruct (devices_all w) as [|device [|d2 ds]] eqn:Hdev;
    try (rewrite script_before_device by (right; rewrite Hdev; discriminate);
         constructor).
  rewrite (script_past_device w fw device Hfw Hdev Hups).
  destruct (get_bundled_fw_version_outcomes fw (product_line device))
    as [[[[|ch bundled]|] Hget] | Hget]; rewrite Hget; cbn [bind truthy negb str_of];
    try constructor.
  - apply (ends_compare w fw device (String ch bundled)); try assumption;
      try reflexivity; try discriminate.
    now apply (truthy_keep_joined w).
  - now apply (ends_reader w fw device).
Qed.

End Outcomes.

(** X14: the only exit codes are 0 and 1, and the code is 0 only when the
    manifest, the updater and the single device were found, the manifest
    gave a non-empty bundled version, and [has_newer_fw] returned [False]. *)
Theorem script_exit_code_meaning (w : World) (c : Z) :
  script w = SysExit c ->
  c = 1 \/
  (c = 0 /\
   exists fw_versions device bundled updaters,
     fw_versions_file w = Some fw_versions /\
     devices_all w = [device] /\
     find (filesin w) updater_mask = Return updaters /\ updaters <> [] /\
     get_bundled_fw_version fw_versions (product_line device) = Return (Some bundled) /\
     bundled <> EmptyString /\
     has_newer_fw (firmware_version device) bundled = Return false).
Proof.
  intros H. pose proof (script_ending w) as E. rewrite H in E.
  inversion E as [| |fw device bundled r Hfw Hdev Hups Hget Hne Hr Heq];
    [now left|]. clear E.
  destruct (has_newer_fw_outcomes (firmware_version device) bundled)
    as (Hexit & _ & _). rewrite Hr in Hexit.
  destruct r as [[|]|c'| |]; cbn [bind negb] in Heq; try discriminate Heq.
  - destruct (find_outcomes (filesin w) (image_mask (product_line device) bundled))
      as [[files Hf] | [[Hf _] | Hf]]; rewrite Hf in Heq; cbn [bind] in Heq;
      try discriminate Heq.
    destruct (negb _); [|discriminate Heq]. injection Heq as <-. now left.
  - injection Heq as <-. right. split; [reflexivity|].
    exists fw, device, bundled,
      (filter (fun leaf => Re.search updater_pattern leaf) (filesin w)).
    split; [exact Hfw|]. split; [exact Hdev|]. split; [apply find_updater|].
    auto.
  - injection Heq as <-. left. now apply Hexit.
Qed.

Lemma script_exit_code_meaning_witness :
  exists fw_versions device bundled updaters,
    Some sample_manifest = Some fw_versions /\
    [sample_device "5.13.0"] = [device] /\
    find sample_tree updater_mask = Return updaters /\ updaters <> [] /\
    get_bundled_fw_version fw_versions (product_line device) = Return (Some bundled) /\
    bundled <> EmptyString /\
    has_newer_fw (firmware_version device) bundled = Return false.
Proof.
  destruct (script_exit_code_meaning
              (sample_world (Some sample_manifest) sample_tree [sample_device "5.13.0"])
              0 eq_refl) as [H | [_ H]]; [discriminate H|exact H].
Defined.

(** X15: the updater is started only when [has_newer_fw] returned [True]
    for the device's version and a non-empty bundled version, and then with
    three arguments: the last path that passed the updater's mask joined to
    the root, [-f], and the last path that passed the image mask joined to
    the root, both non-empty. *)
Theorem script_starts_updater_only_when_newer (w : World) (argv : list string) :
  script w = Return argv ->
  exists fw_versions device bundled updaters images,
    fw_versions_file w = Some fw_versions /\
    devices_all w = [device] /\
    get_bundled_fw_version fw_versions (product_line device) = Return (Some bundled) /\
    bundled <> EmptyString /\
    has_newer_fw (firmware_version device) bundled = Return true /\
    find (filesin w) updater_mask = Return updaters /\
    find (filesin w) (image_mask (product_line device) bundled) = Return images /\
    updaters <> [] /\ images <> [] /\
    argv = [os_path_join w (librealsense w) (last updaters EmptyString); "-f";
            os_path_join w (librealsense w) (last images EmptyString)] /\
    os_path_join w (librealsense w) (last updaters EmptyString) <> EmptyString /\
    os_path_join w (librealsense w) (last images EmptyString) <> EmptyString.
Proof.
  intros H. pose proof (script_ending w) as E. rewrite H in E.
  inversion E as [| |fw device bundled r Hfw Hdev Hups Hget Hne Hr Heq]. clear E.
  destruct r as [[|]|c'| |]; cbn [bind negb] in Heq; try discriminate Heq.
  destruct (find_outcomes (filesin w) (image_mask (product_line device) bundled))
    as [[files Hf] | [[Hf _] | Hf]]; rewrite Hf in Heq; cbn [bind] in Heq;
    try discriminate Heq.
  destruct (truthy (keep_joined w files)) eqn:Himg; [|discriminate Heq].
  cbn [negb] in Heq. injection Heq as <-.
  assert (Ht : truthy (keep_joined w (filter (fun leaf => Re.search updater_pattern leaf)
                                             (filesin w))) = true).
  { destruct (truthy (keep_joined w (filter (fun leaf => Re.search updater_pattern leaf)
                                            (filesin w)))) eqn:Ht; [reflexivity|].
    rewrite script_before_device in H by (now left). discriminate H. }
  pose proof (truthy_keep_joined w _ Himg) as Hi.
  rewrite keep_joined_last in Ht, Himg. rewrite !keep_joined_last.
  exists fw, device, bundled,
    (filter (fun leaf => Re.search updater_pattern leaf) (filesin w)), files.
  destruct (filter (fun leaf => Re.search updater_pattern leaf) (filesin w))
    as [|u us] eqn:Eu; [now elim Hups|].
  destruct files as [|f fs]; [now elim Hi|].
  cbn [truthy str_of] in *.
  split; [exact Hfw|]. split; [exact Hdev|]. split; [exact Hget|].
  split; [exact Hne|]. split; [exact Hr|].
  split; [rewrite find_updater; now rewrite Eu|]. split; [exact Hf|].
  split; [discriminate|]. split; [discriminate|]. split; [reflexivity|].
  split; intros Hemp; [rewrite Hemp in Ht; discriminate Ht
                      |rewrite Hemp in Himg; discriminate Himg].
Qed.

Lemma script_starts_updater_only_when_newer_witness :
  exists fw_versions device bundled updaters images,
    Some sample_manifest = Some fw_versions /\
    [sample_device "5.12.1"] = [device] /\
    get_bundled_fw_version fw_versions (product_line device) = Return (Some bundled) /\
    bundled <> EmptyString /\
    has_newer_fw (firmware_version device) bundled = Return true /\
    find sample_tree updater_mask = Return updaters /\
    find sample_tree (image_mask (product_line device) bundled) = Return images /\
    updaters <> [] /\ images <> [] /\
    [ "/home/ci/librealsense/build/Release/rs-fw-update.exe"; "-f";
      "/home/ci/librealsense/build/common/fw/D4XX_FW_Image-5.13.0.bin" ]
    = [posix_join "/home/ci/librealsense" (last updaters EmptyString); "-f";
       posix_join "/home/ci/librealsense" (last images EmptyString)] /\
    posix_join "/home/ci/librealsense" (last updaters EmptyString) <> EmptyString /\
    posix_join "/home/ci/librealsense" (last images EmptyString) <> EmptyString.
Proof.
  apply (script_starts_updater_only_when_newer
           (sample_world (Some sample_manifest) sample_tree [sample_device "5.12.1"])).
  vm_compute. reflexivity.
Defined.



(** X17: the whole run depends on the device's product line through its
    first two characters only: two devices that report the same version and
    product lines with the same first two characters end the same way. *)
Theorem script_two_characters (w : World) (fw pl1 pl2 : string) :
  slice pl1 0 2 = slice pl2 0 2 ->
  script (with_devices w [{| firmware_version := fw; product_line := pl1 |}])
  = script (with_devices w [{| firmware_version := fw; product_line := pl2 |}]).
Proof.
  intros H. unfold script.
  cbn [with_devices fw_versions_file filesin devices_all firmware_version
       product_line List.length Nat.eqb negb].
  destruct (fw_versions_file w) as [fw_versions|]; [|reflexivity].
  assert (Hget : get_bundled_fw_version fw_versions pl1
                 = get_bundled_fw_version fw_versions pl2).
  { unfold get_bundled_fw_version. now rewrite !loop_cases, H. }
  assert (Hmask : forall v, image_mask pl1 v = image_mask pl2 v).
  { intros v. unfold image_mask, image_name. now rewrite H. }
  rewrite Hget. unfold keep_joined. cbn [with_devices librealsense os_path_join].
  destruct (find (filesin w) updater_mask) as [files| | |]; try reflexivity.
  cbn [bind]. destruct (negb _); [reflexivity|].
  destruct (get_bundled_fw_version fw_versions pl2) as [bundled| | |]; try reflexivity.
  cbn [bind]. destruct (negb (truthy bundled)); [reflexivity|].
  destruct (has_newer_fw fw (str_of bundled)) as [newer| | |]; try reflexivity.
  cbn [bind]. destruct (negb newer); [reflexivity|]. now rewrite Hmask.
Qed.

Lemma script_two_characters_witness :
  script (sample_world (Some sample_manifest) sample_tree
            [{| firmware_version := "5.12.1"; product_line := "D400" |}])
  = script (sample_world (Some sample_manifest) sample_tree
              [{| firmware_version := "5.12.1"; product_line := "D455" |}]).
Proof.
  exact (script_two_characters (sample_world (Some sample_manifest) sample_tree [])
           "5.12.1" "D400" "D455" eq_refl).
Defined.

(** X18: when the third token of the first qualifying line has at most two
    characters, as in an empty pair of quotes, the version read is the empty
    string, and the script takes it for a missing entry and exits with 1. *)
Theorem script_empty_version (w : World) (device : Device)
  (fw_versions line w1 w2 : string) (pre rest more : list string) :
  fw_versions_file w = Some fw_versions ->
  devices_all w = [device] ->
  manifest_lines fw_versions = (pre ++ line :: rest)%list ->
  Forall (fun l => enough_tokens (slice (product_line device) 0 2) l = true /\
                   qualifies (slice (product_line device) 0 2) l = false) pre ->
  split_ws line = "#define" :: w1 :: w2 :: more ->
  str_in (slice (product_line device) 0 2) w1 = true ->
  (String.length w2 <= 2)%nat ->
  get_bundled_fw_version fw_versions (product_line device) = Return (Some "") /\
  script w = SysExit 1.
Proof.
  intros Hfw Hdev Hlines Hpre Hw Hin Hlen.
  assert (Hget : get_bundled_fw_version fw_versions (product_line device)
                 = Return (Some "")).
  { unfold get_bundled_fw_version. fold (manifest_lines fw_versions).
    rewrite Hlines, (loop_skip_all _ pre _ Hpre).
    rewrite (loop_hit _ line w1 w2 more rest Hw Hin). now rewrite slice_short. }
  split; [exact Hget|].
  destruct (truthy (keep_joined w (filter (fun leaf => Re.search updater_pattern leaf)
                                          (filesin w)))) eqn:Hups.
  - rewrite (script_past_device w fw_versions device Hfw Hdev Hups), Hget. reflexivity.
  - apply script_before_device. now left.
Qed.

Lemma script_empty_version_witness :
  get_bundled_fw_version ("#define D4XX_FW_VERSION " ++ quoted "") "D400"
  = Return (Some "") /\
  script (sample_world (Some ("#define D4XX_FW_VERSION " ++ quoted "")) sample_tree
            [sample_device "5.12.1"]) = SysExit 1.
Proof.
  apply (script_empty_version
           (sample_world (Some ("#define D4XX_FW_VERSION " ++ quoted "")) sample_tree
              [sample_device "5.12.1"])
           (sample_device "5.12.1") _ ("#define D4XX_FW_VERSION " ++ quoted "")
           "D4XX_FW_VERSION" (quoted "") [] [] []);
    first [reflexivity | constructor | (cbn; lia)].
Defined.

(** * [filesin] *)

Section Filesin.

Import Walk.

Lemma tree_induction (P : tree -> Prop) :
  (forall leafs subdirs,
      Forall (fun entry => P (snd entry)) subdirs -> P (Dir leafs subdirs)) ->
  forall t, P t.
Proof.
  intros H. fix IH 1. intros [leafs subdirs]. apply H.
  induction subdirs as [|[name sub] subdirs IHs]; constructor.
  - apply IH.
  - exact IHs.
Qed.

Lemma replace_append (old new : ascii) (a b : string) :
  replace old new (a ++ b) = replace old new a ++ replace old new b.
Proof.
  induction a as [|c a IH]; [reflexivity|].
  change (String c a ++ b) with (String c (a ++ b)).
  cbn [replace append]. now rewrite IH.
Qed.

Lemma replace_absent (old new : ascii) (s : string) :
  count_char old s = 0%nat -> replace old new s = s.
Proof.
  induction s as [|c s IH]; [reflexivity|]. cbn [count_char replace].
  destruct (Ascii.eqb c old); [discriminate|]. intros H. now rewrite IH.
Qed.

Lemma replace_gone (new : ascii) (s : string) :
  new <> "\"%char -> count_char "\" (replace "\" new s) = 0%nat.
Proof.
  intros Hnew. apply Ascii.eqb_neq in Hnew.
  induction s as [|c s IH]; [reflexivity|]. cbn [replace count_char].
  destruct (Ascii.eqb c "\") eqn:E; [now rewrite Hnew|now rewrite E].
Qed.

Variable p : platform.

Lemma replace_sep : replace "\" "/" (sep p) = "/".
Proof. now destruct p. Qed.

Lemma replace_relpath (path : list string) (leaf : string) :
  replace "\" "/" (relpath p path leaf) = dir_prefix path ++ replace "\" "/" leaf.
Proof.
  unfold relpath. induction path as [|name path IH]; [reflexivity|].
  cbn [app String.concat dir_prefix].
  destruct (path ++ [leaf])%list eqn:E; [now destruct path|].
  rewrite !replace_append, replace_sep, IH. now rewrite !append_assoc.
Qed.

(** The files of one directory, then those of its sub-directories in turn. *)
Lemma filesin_from_Dir (path : list string) (leafs : list string)
  (subdirs : list (string * tree)) :
  filesin_from p path (Dir leafs subdirs)
  = List.app
      (map (fun leaf => dir_prefix path ++ replace "\" "/" leaf) leafs)
      (flat_map (fun entry => filesin_from p (path ++ [fst entry])%list (snd entry))
                subdirs).
Proof.
  unfold filesin_from at 1. cbn [walk flat_map]. f_equal.
  - apply map_ext. intros leaf. apply replace_relpath.
  - induction subdirs as [|[name sub] subdirs IH]; [reflexivity|].
    cbn [flat_map fst snd]. rewrite flat_map_app. f_equal. exact IH.
Qed.

Lemma dir_prefix_app (a b : list string) :
  dir_prefix (a ++ b) = dir_prefix a ++ dir_prefix b.
Proof.
  induction a as [|x a IH]; [reflexivity|]. cbn [app dir_prefix].
  now rewrite IH, !append_assoc.
Qed.

Lemma filesin_from_prefix (t : tree) (path : list string) :
  filesin_from p path t = map (append (dir_prefix path)) (filesin p t).
Proof.
  revert path. induction t as [leafs subdirs IH] using tree_induction. intros path.
  unfold filesin. rewrite !filesin_from_Dir, map_app, map_map. f_equal.
  clear leafs. induction IH as [|[name sub] subdirs Hsub _ IHs]; [reflexivity|].
  cbn [flat_map fst snd app map]. rewrite map_app. f_equal; [|exact IHs].
  cbn [snd] in Hsub. rewrite (Hsub (path ++ [name])%list), (Hsub [name]), map_map.
  apply map_ext. intros rel. rewrite dir_prefix_app. apply append_assoc.
Qed.

Lemma filesin_Dir (leafs : list string) (subdirs : list (string * tree)) :
  filesin p (Dir leafs subdirs)
  = List.app
      (map (replace "\" "/") leafs)
      (flat_map (fun entry =>
                   map (fun rel => replace "\" "/" (fst entry) ++ "/" ++ rel)
                       (filesin p (snd entry)))
                subdirs).
Proof.
  unfold filesin at 1. rewrite filesin_from_Dir. f_equal.
  apply flat_map_ext. intros [name sub]. cbn [app fst snd].
  rewrite filesin_from_prefix. apply map_ext. intros rel.
  cbn [dir_prefix]. now rewrite !append_assoc.
Qed.

Lemma filesin_yields (t : tree) (path : string) :
  In path (filesin p t) -> exists s, path = replace "\" "/" s.
Proof.
  unfold filesin, filesin_from. intros H.
  apply in_flat_map in H as ([[dirs subs] leafs] & _ & H).
  apply in_map_iff in H as (leaf & <- & _). eauto.
Qed.

Lemma contains_yielded (t : tree) (name : string) :
  contains t name ->
  exists path,
    In path (filesin p t) /\
    (path = replace "\" "/" name \/
     exists dir, path = dir ++ "/" ++ replace "\" "/" name).
Proof.
  induction 1 as [leafs subdirs name Hin | leafs subdirs dir sub name Hin _ IH].
  - exists (replace "\" "/" name). split; [|now left].
    rewrite filesin_Dir. apply in_or_app. left. now apply in_map.
  - destruct IH as (rel & Hrel & Hshape).
    exists (replace "\" "/" dir ++ "/" ++ rel). split.
    + rewrite filesin_Dir. apply in_or_app. right.
      apply in_flat_map. exists (dir, sub). split; [exact Hin|].
      cbn [fst snd]. now apply in_map with (f := fun rel => _ ++ "/" ++ rel).
    + right. destruct Hshape as [-> | (d & ->)].
      * now exists (replace "\" "/" dir).
      * exists (replace "\" "/" dir ++ "/" ++ d). now rewrite !append_assoc.
Qed.

End Filesin.

Lemma filesin_from_platform (t : Walk.tree) (path : list string) :
  Walk.filesin_from Walk.Windows path t = Walk.filesin_from Walk.Posix path t.
Proof.
  revert path. induction t as [leafs subdirs IH] using tree_induction. intros path.
  rewrite !filesin_from_Dir. f_equal.
  induction IH as [|[name sub] subdirs Hsub _ IHs]; [reflexivity|].
  cbn [flat_map fst snd] in *. now rewrite IHs, (Hsub (path ++ [name])%list).
Qed.

Lemma plain_no_backslash (name : string) :
  plain_name name = true -> count_char "\" name = 0%nat.
Proof.
  induction name as [|c name IH]; [reflexivity|]. cbn [plain_name count_char].
  intros H. apply andb_true_iff in H as [Hc H]. rewrite (IH H).
  destruct (Ascii.eqb_spec c "\") as [->|_]; [discriminate Hc|reflexivity].
Qed.

Lemma has_newer_fw_empty_bundled (current_fw : string) :
  has_newer_fw current_fw "" <> Return true.
Proof.
  unfold has_newer_fw. destruct (negb _); [discriminate|].
  cbn [split_on]. destruct (split_on "." current_fw); discriminate.
Qed.

(** X19: no path yielded by [filesin] contains a backslash, on either
    platform and whatever the names in the tree. *)
Theorem filesin_no_backslash (p : Walk.platform) (root : Walk.tree) (path : string) :
  In path (Walk.filesin p root) -> count_char "\" path = 0%nat.
Proof.
  intros H. apply filesin_yields in H as (s & ->).
  apply replace_gone. discriminate.
Qed.

Lemma filesin_no_backslash_witness :
  count_char "\" "build/Release/a/b.txt" = 0%nat.
Proof.
  apply (filesin_no_backslash Walk.Posix Walk.sample_root). cbn. tauto.
Defined.

(** X20: [filesin] yields the same paths in the same order whether the
    platform joins directory names with [/] or with a backslash. *)
Theorem filesin_platform_independent (root : Walk.tree) :
  Walk.filesin Walk.Windows root = Walk.filesin Walk.Posix root.
Proof. apply filesin_from_platform. Qed.

(** X21: [filesin] yields first the files of the root under their own names,
    in the order listed, then for each sub-directory in turn what it yields
    for that directory with the directory's name and [/] put in front,
    backslashes in names being replaced by [/]. *)
Theorem filesin_structure (p : Walk.platform) (leafs : list string)
  (subdirs : list (string * Walk.tree)) :
  Walk.filesin p (Walk.Dir leafs subdirs)
  = List.app
      (map (Walk.replace "\" "/") leafs)
      (flat_map (fun entry =>
                   map (fun rel => Walk.replace "\" "/" (fst entry) ++ "/" ++ rel)
                       (Walk.filesin p (snd entry)))
                subdirs).
Proof. apply filesin_Dir. Qed.

(** X22: when a file named [rs-fw-update.exe] lies anywhere in the tree
    that is walked, the search for the updater finds a path and the script
    does not stop for a missing updater. *)
Theorem updater_in_tree_is_found (w : World) (p : Walk.platform) (root : Walk.tree) :
  filesin w = Walk.filesin p root ->
  join_nonempty w ->
  Walk.contains root "rs-fw-update.exe" ->
  exists files,
    find (filesin w) updater_mask = Return files /\
    files <> [] /\
    truthy (keep_joined w files) = true.
Proof.
  intros Hw Hjoin Hc.
  exists (filter (fun leaf => Re.search updater_pattern leaf) (filesin w)).
  split; [apply find_updater|].
  assert (Hne : filter (fun leaf => Re.search updater_pattern leaf) (filesin w) <> []).
  { destruct (contains_yielded p root _ Hc) as (path & Hin & Hshape).
    rewrite <- Hw in Hin.
    assert (Hs : Re.search updater_pattern path = true).
    { destruct Hshape as [-> | (dir & ->)]; [reflexivity|].
      apply search_updater_in_dir. }
    intros Hnil.
    assert (Hin' : In path (filter (fun leaf => Re.search updater_pattern leaf)
                                   (filesin w))) by (apply filter_In; auto).
    now rewrite Hnil in Hin'. }
  split; [exact Hne|].
  apply keep_joined_truthy; [assumption..|].
  apply (updater_match_nonempty (filesin w)). now apply last_In.
Qed.

Lemma updater_in_tree_is_found_witness :
  exists files,
    find (Walk.filesin Walk.Posix Walk.sample_root) updater_mask = Return files /\
    files <> [] /\
    truthy (keep_joined
              (sample_world None (Walk.filesin Walk.Posix Walk.sample_root) [])
              files) = true.
Proof.
  apply (updater_in_tree_is_found
           (sample_world None (Walk.filesin Walk.Posix Walk.sample_root) [])
           Walk.Posix Walk.sample_root eq_refl (sample_world_join _ _ _)).
  apply (Walk.contains_below _ _ "build" (Walk.Dir [] [("Release",
           Walk.Dir ["rs-fw-update.exe"; "a\b.txt"] [])])); [now left|].
  apply (Walk.contains_below _ _ "Release" (Walk.Dir ["rs-fw-update.exe"; "a\b.txt"] []));
    [now left|].
  apply Walk.contains_here. now left.
Defined.

Lemma str_of_keep_joined (w : World) (files : list string) :
  files <> [] ->
  str_of (keep_joined w files)
  = os_path_join w (librealsense w) (last files EmptyString).
Proof.
  intros H. rewrite keep_joined_last. destruct files; [now elim H|reflexivity].
Qed.

(** X23: when the tree walked holds a file named [rs-fw-update.exe] and a
    file with the image name, the first qualifying line of the manifest gives
    a bundled version that is greater, as a list of integers, than the single
    device's, and neither the first two characters of the product line nor
    the bundled version contain a character that a regular expression reads
    specially, other than [.], the script reaches the start of the updater
    with the last path that passed the updater's mask, [-f], and the last
    path that passed the image mask, each joined to the root. *)
Theorem script_starts_updater (w : World) (p : Walk.platform) (root : Walk.tree)
  (device : Device) (fw_versions bundled : string) (cs bs : list Z) :
  filesin w = Walk.filesin p root ->
  join_nonempty w ->
  fw_versions_file w = Some fw_versions ->
  devices_all w = [device] ->
  forallb (enough_tokens (slice (product_line device) 0 2))
          (up_to_first (qualifies (slice (product_line device) 0 2))
                       (manifest_lines fw_versions)) = true ->
  manifest_lookup (manifest_lines fw_versions) (slice (product_line device) 0 2)
  = Some bundled ->
  version_of (firmware_version device) = Some cs ->
  version_of bundled = Some bs ->
  List.length cs = List.length bs ->
  newer_lex cs bs = true ->
  plain_name (slice (product_line device) 0 2) = true ->
  plain_name bundled = true ->
  Walk.contains root "rs-fw-update.exe" ->
  Walk.contains root (image_name (product_line device) bundled) ->
  exists updaters images,
    find (filesin w) updater_mask = Return updaters /\
    find (filesin w) (image_mask (product_line device) bundled) = Return images /\
    updaters <> [] /\ images <> [] /\
    script w
    = Return [os_path_join w (librealsense w) (last updaters EmptyString); "-f";
              os_path_join w (librealsense w) (last images EmptyString)].
Proof.
  intros Hw Hjoin Hfw Hdev Htokens Hlookup Hcs Hbs Hlen Hlex Hpl Hb Hupd Himg.
  assert (Hget : get_bundled_fw_version fw_versions (product_line device)
                 = Return (Some bundled)).
  { unfold get_bundled_fw_version. fold (manifest_lines fw_versions).
    now rewrite loop_cases, Htokens, Hlookup. }
  assert (Hnewer : has_newer_fw (firmware_version device) bundled = Return true).
  { rewrite (has_newer_fw_lex _ _ cs bs Hcs Hbs), Hlex; [reflexivity|].
    now rewrite <- (version_digits_length _ _ Hcs), <- (version_digits_length _ _ Hbs). }
  set (ups := filter (fun leaf => Re.search updater_pattern leaf) (filesin w)).
  assert (Hune : ups <> []).
  { destruct (contains_yielded p root _ Hupd) as (path & Hin & Hshape).
    rewrite <- Hw in Hin.
    assert (Hs : Re.search updater_pattern path = true).
    { destruct Hshape as [-> | (dir & ->)]; [reflexivity|].
      apply search_updater_in_dir. }
    assert (Hin' : In path ups) by (apply filter_In; auto).
    intros E; rewrite E in Hin'; exact Hin'. }
  assert (Hups : truthy (keep_joined w ups) = true).
  { apply keep_joined_truthy; [assumption..|].
    apply (updater_match_nonempty (filesin w)). now apply last_In. }
  pose proof (plain_image_name _ _ Hpl Hb) as Hplain.
  set (name := image_name (product_line device) bundled) in *.
  set (imgs := filter (fun leaf => Re.search (name_pattern name) leaf) (filesin w)).
  assert (Hine : imgs <> []).
  { destruct (contains_yielded p root _ Himg) as (path & Hin & Hshape).
    rewrite <- Hw in Hin.
    rewrite (replace_absent _ _ _ (plain_no_backslash _ Hplain)) in Hshape.
    assert (Hs : Re.search (name_pattern name) path = true).
    { apply search_name_pattern.
      destruct Hshape as [-> | (dir & ->)].
      - exists EmptyString, name, EmptyString. repeat split; auto using reads_as_refl.
        cbn [append]. clear. induction name as [|c n IH]; [reflexivity|].
        cbn [append]. now rewrite <- IH.
      - exists (dir ++ "/"), name, EmptyString. repeat split; auto using reads_as_refl.
        + rewrite append_assoc. f_equal. cbn [append]. f_equal. clear.
          induction name as [|c n IH]; [reflexivity|]. cbn [append]. now rewrite <- IH.
        + right. now exists dir. }
    assert (Hin' : In path imgs) by (apply filter_In; auto).
    intros E; rewrite E in Hin'; exact Hin'. }
  assert (Himgs : truthy (keep_joined w imgs) = true).
  { apply keep_joined_truthy; [assumption..|].
    pose proof (last_In imgs EmptyString Hine) as Hlast.
    apply filter_In in Hlast as [_ Hlast]. intros Hemp. rewrite Hemp in Hlast.
    apply search_name_pattern in Hlast as (pre & body & nl & Hsplit & _ & Hr & _).
    destruct pre; [|discriminate Hsplit]. destruct body; [|discriminate Hsplit].
    unfold name, image_name in Hr.
    destruct (slice (product_line device) 0 2) as [|a [|b t]]; discriminate Hr. }
  exists ups, imgs.
  split; [apply find_updater|].
  split; [unfold image_mask; fold name; exact (find_anchored _ name Hplain)|].
  split; [exact Hune|]. split; [exact Hine|].
  rewrite (script_past_device w fw_versions device Hfw Hdev Hups), Hget.
  destruct bundled as [|ch bundled]; [now apply has_newer_fw_empty_bundled in Hnewer|].
  cbn [bind truthy negb str_of]. rewrite Hnewer. cbn [bind negb].
  unfold image_mask. fold name. rewrite (find_anchored _ name Hplain).
  cbn [bind]. fold imgs. rewrite Himgs. cbn [negb].
  fold ups.
  now rewrite (str_of_keep_joined w ups Hune), (str_of_keep_joined w imgs Hine).
Qed.

Lemma script_starts_updater_witness :
  script (sample_world (Some sample_manifest)
            (Walk.filesin Walk.Windows sample_repository) [sample_device "5.12.1"])
  = Return [ "/home/ci/librealsense/build/Release/rs-fw-update.exe"; "-f";
             "/home/ci/librealsense/common/fw/D4XX_FW_Image-5.13.0.bin" ].
Proof.
  assert (Hupd : Walk.contains sample_repository "rs-fw-update.exe").
  { apply (Walk.contains_below _ _ "build"
             (Walk.Dir [] [("Release", Walk.Dir ["rs-fw-update.exe"] [])])); [now left|].
    apply (Walk.contains_below _ _ "Release" (Walk.Dir ["rs-fw-update.exe"] []));
      [now left|].
    apply Walk.contains_here. now left. }
  assert (Himg : Walk.contains sample_repository (image_name "D400" "5.13.0")).
  { apply (Walk.contains_below _ _ "common"
             (Walk.Dir [] [("fw", Walk.Dir ["firmware-version.h";
                                            "D4XX_FW_Image-5.13.0.bin"] [])]));
      [right; now left|].
    apply (Walk.contains_below _ _ "fw"
             (Walk.Dir ["firmware-version.h"; "D4XX_FW_Image-5.13.0.bin"] []));
      [now left|].
    apply Walk.contains_here. right. now left. }
  destruct (script_starts_updater
              (sample_world (Some sample_manifest)
                 (Walk.filesin Walk.Windows sample_repository) [sample_device "5.12.1"])
              Walk.Windows sample_repository (sample_device "5.12.1")
              sample_manifest "5.13.0" [5; 12; 1] [5; 13; 0]
              eq_refl (sample_world_join _ _ _)
              eq_refl eq_refl eq_refl eq_refl eq_refl eq_refl eq_refl eq_refl
              eq_refl eq_refl Hupd Himg)
    as (updaters & images & Hu & Hi & _ & _ & Hs).
  injection Hu as <-. injection Hi as <-. exact Hs.
Defined.

(** * Anchoring *)

Section Anchoring.

Lemma length_append (a b : string) :
  String.length (a ++ b) = (String.length a + String.length b)%nat.
Proof. induction a as [|c a IH]; cbn; [reflexivity | now f_equal]. Qed.

Lemma append_same_length (a b c d : string) :
  a ++ b = c ++ d -> String.length b = String.length d -> a = c /\ b = d.
Proof.
  revert c; induction a as [|x a IH]; intros [|y c] H Hlen; cbn [append] in H.
  - auto.
  - subst b. cbn [append String.length] in Hlen. rewrite length_append in Hlen. lia.
  - subst d. cbn [String.length] in Hlen. rewrite length_append in Hlen. lia.
  - injection H as -> H. destruct (IH c H Hlen) as [-> ->]. auto.
Qed.

Lemma last_character (s : string) :
  s <> EmptyString -> exists s' z, s = s' ++ String z EmptyString.
Proof.
  induction s as [|c s IH]; intros H; [now elim H|].
  destruct s as [|d s].
  - now exists EmptyString, c.
  - destruct IH as (s' & z & E); [discriminate|]. rewrite E.
    now exists (String c s'), z.
Qed.

Lemma count_char_append (c : ascii) (a b : string) :
  count_char c (a ++ b) = (count_char c a + count_char c b)%nat.
Proof.
  induction a as [|x a IH]; [reflexivity|].
  change (String x a ++ b) with (String x (a ++ b)).
  cbn [count_char]. rewrite IH. lia.
Qed.

Lemma last_character_absent (c : ascii) (s : string) :
  s <> EmptyString -> count_char c s = 0%nat ->
  exists s' z, s = s' ++ String z EmptyString /\ z <> c.
Proof.
  intros Hne Hc. destruct (last_character s Hne) as (s' & z & ->).
  exists s', z. split; [reflexivity|]. intros ->.
  rewrite count_char_append in Hc. cbn [count_char] in Hc.
  rewrite Ascii.eqb_refl in Hc. lia.
Qed.

Lemma reads_as_length (name body : string) :
  reads_as name body = true -> String.length body = String.length name.
Proof.
  revert body; induction name as [|c name IH]; intros [|d body] H;
    try discriminate H; [reflexivity|].
  cbn [reads_as] in H. apply andb_true_iff in H as [_ H].
  cbn [String.length]. now rewrite (IH body H).
Qed.

(** A path that ends in a non-empty text without [/] followed by the name
    does not pass the mask of the name. *)
Lemma longer_component_fails (name front x : string) :
  name <> EmptyString -> count_char LF name = 0%nat ->
  x <> EmptyString -> count_char "/" x = 0%nat ->
  ~ passes name ((front ++ x) ++ name).
Proof.
  intros Hname Hlf Hx Hslash (pre & body & nl & Hsplit & Hpre & Hr & Hnl).
  apply reads_as_length in Hr.
  destruct Hnl as [-> | ->].
  - replace (pre ++ body ++ "") with (pre ++ body) in Hsplit
      by (f_equal; clear; induction body as [|c b IH]; cbn; [reflexivity|now rewrite <- IH]).
    destruct (append_same_length _ _ _ _ Hsplit (eq_sym Hr)) as [Hfront _].
    destruct (last_character_absent "/" x Hx Hslash) as (x' & z & -> & Hz).
    destruct Hpre as [-> | (pre' & ->)].
    + destruct front; discriminate Hfront || (destruct x'; discriminate Hfront).
    + rewrite <- append_assoc in Hfront.
      destruct (append_same_length _ _ _ _ Hfront eq_refl) as [_ E].
      injection E as E. now elim Hz.
  - destruct (last_character_absent LF name Hname Hlf) as (n' & z & -> & Hz).
    rewrite <- !append_assoc in Hsplit.
    destruct (append_same_length _ _ _ _ Hsplit eq_refl) as [_ E].
    injection E as E. now elim Hz.
Qed.

End Anchoring.

(** X24: a mask built from a name accepts no path whose final component is
    longer than the name and merely ends with it: for a name without LF and
    a non-empty text without [/] put in front of it, neither that text
    followed by the name nor any directory, [/], that text and the name is
    yielded. *)
Theorem find_rejects_longer_component (leafs : list string) (name dir x : string) :
  plain_name name = true ->
  name <> EmptyString ->
  count_char LF name = 0%nat ->
  x <> EmptyString ->
  count_char "/" x = 0%nat ->
  exists files,
    find leafs ("(^|/)" ++ name ++ "$") = Return files /\
    ~ In (x ++ name) files /\
    ~ In (dir ++ "/" ++ x ++ name) files.
Proof.
  intros Hplain Hname Hlf Hx Hslash.
  exists (filter (fun leaf => Re.search (name_pattern name) leaf) leafs).
  split; [exact (find_anchored leafs name Hplain)|].
  split; intros Hin; apply filter_In in Hin as [_ Hs];
    apply search_name_pattern in Hs.
  - now apply (longer_component_fails name EmptyString x Hname Hlf Hx Hslash).
  - apply (longer_component_fails name (dir ++ "/") x Hname Hlf Hx Hslash).
    now rewrite !append_assoc.
Qed.

Lemma find_rejects_longer_component_witness :
  exists files,
    find sample_tree updater_mask = Return files /\
    ~ In "not-rs-fw-update.exe" files /\
    ~ In "tools/not-rs-fw-update.exe" files.
Proof.
  apply (find_rejects_longer_component sample_tree "rs-fw-update.exe" "tools" "not-");
    first [reflexivity | discriminate].
Defined.
